(** * Surface model construction from an OpenAPI v2 description

    A shallow embedding of
    [plugins/gnostic-go-generator/surface/model_openapiv2.go]: the builder
    that turns an [openapiv2.Document] into the generator's surface [Model]
    (named types and methods), together with the properties of it that the
    design document states.

    Go pointers to messages are [option]s, repeated fields are [list]s, a
    protobuf [oneof] is an optional sum, strings are [string]s.  A nil
    dereference is the [Panicked] outcome; the Go [error] result is kept as
    an [option]. *)

From Stdlib Require Import String Ascii List Bool ZArith Lia.
Import ListNotations.
Local Open Scope list_scope.
Local Open Scope string_scope.

(** ** OpenAPI v2 messages (package [openapiv2])

    Only the fields the builder reads are kept.  Entries of repeated fields
    are never nil, and a name/value pair is taken to carry its value. *)
Module openapiv2.

Record TypeItem := { TypeItem_Value : list string }.

(** The alternatives of the additional-properties [oneof]. *)
Inductive isAdditionalPropertiesItem_Oneof (S : Type) :=
| AdditionalPropertiesItem_Schema (s : S)
| AdditionalPropertiesItem_Boolean (b : bool).
Arguments AdditionalPropertiesItem_Schema {S} s.
Arguments AdditionalPropertiesItem_Boolean {S} b.

Inductive Schema := mkSchema {
  XRef : string;
  Format : string;
  Schema_Type : option TypeItem;
  Items : option ItemsItem;
  Properties : option Properties_;
  AdditionalProperties : option AdditionalPropertiesItem }
with ItemsItem := mkItemsItem {
  ItemsItem_Schema : list Schema }
with Properties_ := mkProperties {
  Properties_AdditionalProperties : list NamedSchema }
with NamedSchema := mkNamedSchema {
  NamedSchema_Name : string;
  NamedSchema_Value : Schema }
with AdditionalPropertiesItem := mkAdditionalPropertiesItem {
  AdditionalPropertiesItem_Oneof :
    option (isAdditionalPropertiesItem_Oneof Schema) }.

(** The generated getter: a nil receiver and the other alternative give nil. *)
Definition AdditionalPropertiesItem_GetSchema
    (m : option AdditionalPropertiesItem) : option Schema :=
  match m with
  | Some {| AdditionalPropertiesItem_Oneof :=
              Some (AdditionalPropertiesItem_Schema s) |} => Some s
  | _ => None
  end.

(** *** Parameters *)

Record JsonReference := { JsonReference_XRef : string }.

Record BodyParameter := {
  BodyParameter_Name : string;
  BodyParameter_Schema : option Schema }.

Record HeaderParameterSubSchema := {
  HeaderParameterSubSchema_Name : string;
  HeaderParameterSubSchema_Type : string }.

Record FormDataParameterSubSchema := {
  FormDataParameterSubSchema_Name : string;
  FormDataParameterSubSchema_Type : string }.

Record QueryParameterSubSchema := {
  QueryParameterSubSchema_Name : string;
  QueryParameterSubSchema_Type : string }.

Record PathParameterSubSchema := {
  PathParameterSubSchema_Name : string;
  PathParameterSubSchema_Type : string;
  PathParameterSubSchema_Format : string }.

Inductive isNonBodyParameter_Oneof :=
| NonBodyParameter_HeaderParameterSubSchema (h : HeaderParameterSubSchema)
| NonBodyParameter_FormDataParameterSubSchema (f : FormDataParameterSubSchema)
| NonBodyParameter_QueryParameterSubSchema (q : QueryParameterSubSchema)
| NonBodyParameter_PathParameterSubSchema (p : PathParameterSubSchema).

Record NonBodyParameter := {
  NonBodyParameter_Oneof : option isNonBodyParameter_Oneof }.

Inductive isParameter_Oneof :=
| Parameter_BodyParameter (b : BodyParameter)
| Parameter_NonBodyParameter (n : NonBodyParameter).

Record Parameter_ := { Parameter_Oneof : option isParameter_Oneof }.

Inductive isParametersItem_Oneof :=
| ParametersItem_Parameter (p : Parameter_)
| ParametersItem_JsonReference (r : JsonReference).

Record ParametersItem := { ParametersItem_Oneof : option isParametersItem_Oneof }.

Definition ParametersItem_GetParameter (m : ParametersItem) : option Parameter_ :=
  match ParametersItem_Oneof m with
  | Some (ParametersItem_Parameter p) => Some p
  | _ => None
  end.

Definition Parameter_GetBodyParameter (m : Parameter_) : option BodyParameter :=
  match Parameter_Oneof m with
  | Some (Parameter_BodyParameter b) => Some b
  | _ => None
  end.

Definition Parameter_GetNonBodyParameter (m : Parameter_) : option NonBodyParameter :=
  match Parameter_Oneof m with
  | Some (Parameter_NonBodyParameter n) => Some n
  | _ => None
  end.

Definition NonBodyParameter_GetHeaderParameterSubSchema (m : NonBodyParameter)
  : option HeaderParameterSubSchema :=
  match NonBodyParameter_Oneof m with
  | Some (NonBodyParameter_HeaderParameterSubSchema h) => Some h
  | _ => None
  end.

Definition NonBodyParameter_GetFormDataParameterSubSchema (m : NonBodyParameter)
  : option FormDataParameterSubSchema :=
  match NonBodyParameter_Oneof m with
  | Some (NonBodyParameter_FormDataParameterSubSchema f) => Some f
  | _ => None
  end.

Definition NonBodyParameter_GetQueryParameterSubSchema (m : NonBodyParameter)
  : option QueryParameterSubSchema :=
  match NonBodyParameter_Oneof m with
  | Some (NonBodyParameter_QueryParameterSubSchema q) => Some q
  | _ => None
  end.

Definition NonBodyParameter_GetPathParameterSubSchema (m : NonBodyParameter)
  : option PathParameterSubSchema :=
  match NonBodyParameter_Oneof m with
  | Some (NonBodyParameter_PathParameterSubSchema p) => Some p
  | _ => None
  end.

(** *** Responses *)

Record FileSchema := { FileSchema_Format : string }.

Inductive isSchemaItem_Oneof :=
| SchemaItem_Schema (s : Schema)
| SchemaItem_FileSchema (f : FileSchema).

Record SchemaItem := { SchemaItem_Oneof : option isSchemaItem_Oneof }.

Definition SchemaItem_GetSchema (m : SchemaItem) : option Schema :=
  match SchemaItem_Oneof m with
  | Some (SchemaItem_Schema s) => Some s
  | _ => None
  end.

Record Response := {
  Response_Description : string;
  Response_Schema : option SchemaItem }.

Inductive isResponseValue_Oneof :=
| ResponseValue_Response (r : Response)
| ResponseValue_JsonReference (j : JsonReference).

Record ResponseValue := { ResponseValue_Oneof : option isResponseValue_Oneof }.

Definition ResponseValue_GetResponse (m : ResponseValue) : option Response :=
  match ResponseValue_Oneof m with
  | Some (ResponseValue_Response r) => Some r
  | _ => None
  end.

Record NamedResponseValue := {
  NamedResponseValue_Name : string;
  NamedResponseValue_Value : ResponseValue }.

Record Responses := { ResponseCode : list NamedResponseValue }.

(** *** Operations, paths and the document *)

Record Operation := {
  OperationId : string;
  Operation_Description : string;
  Operation_Parameters : list ParametersItem;
  Operation_Responses : option Responses }.

Record PathItem := {
  Get : option Operation;
  Put : option Operation;
  Post : option Operation;
  Delete : option Operation;
  Options : option Operation;
  Head : option Operation;
  Patch : option Operation }.

Record NamedPathItem := {
  NamedPathItem_Name : string;
  NamedPathItem_Value : PathItem }.

Record Paths := { Path : list NamedPathItem }.

Record Definitions := { Definitions_AdditionalProperties : list NamedSchema }.

Record Info := { Title : string }.

Record Document := {
  Document_Info : option Info;
  Document_Definitions : option Definitions;
  Document_Paths : option Paths }.

End openapiv2.
Import openapiv2.

(** ** The surface model (package [gnostic_surface_v1]) *)

(** Modelled from the spec: the enumerations [Kind] and [Position] are
    generated code outside this file; they are Go [int32]s, whose zero value
    is what a freshly declared message holds, and the values of their
    constants are taken as parameters below. *)
Definition Kind := Z.
Definition Position := Z.

(** Modelled from the spec: the message [Field] is generated code outside
    this file; one member of a type, with the attributes of the data model. *)
Record Field := mkField {
  Field_Name : string;
  Field_Type : string;
  Field_ValueType : string;
  Field_Format : string;
  Field_Position : Position;
  Field_Serialize : bool }.

(** Modelled from the spec: the message [Type] is generated code outside
    this file; a named composite declaration. *)
Record Type_ := mkType {
  Type_Name : string;
  Type_Description : string;
  Type_Kind : Kind;
  Type_Fields : list Field;
  Type_MapType : string }.

(** Modelled from the spec: the message [Method] is generated code outside
    this file; one operation of the service. *)
Record Method := mkMethod {
  Method_Operation : string;
  Method_Path : string;
  Method_Method : string;
  Method_Description : string;
  Method_Name : string;
  Method_ParametersTypeName : string;
  Method_ResponsesTypeName : string }.

(** Modelled from the spec: the message [Model] is generated code outside
    this file; the named service with its types and methods in insertion
    order. *)
Record Model := mkModel {
  Model_Name : string;
  Model_Types : list Type_;
  Model_Methods : list Method }.

(** Go zero values: [var f Field], [&Type{}], [var m Method], [&Model{}]. *)
Definition zeroField : Field := mkField "" "" "" "" 0%Z false.
Definition zeroType : Type_ := mkType "" "" 0%Z [] "".
Definition zeroMethod : Method := mkMethod "" "" "" "" "" "" "".
Definition zeroModel : Model := mkModel "" [] [].

(** Modelled from the spec: [addField], [addType] and [addMethod] are defined
    in the package's other files; the design document has them append, so
    that fields, types and methods are kept in insertion order. *)
Definition addField (t : Type_) (f : Field) : Type_ :=
  mkType (Type_Name t) (Type_Description t) (Type_Kind t)
         (Type_Fields t ++ [f])%list (Type_MapType t).

Definition addType (m : Model) (t : Type_) : Model :=
  mkModel (Model_Name m) (Model_Types m ++ [t])%list (Model_Methods m).

Definition addMethod (m : Model) (method : Method) : Model :=
  mkModel (Model_Name m) (Model_Types m) (Model_Methods m ++ [method])%list.

(** What the builder takes from outside this file: the naming helpers of the
    package, the values of the enumeration constants, and the renderings
    [fmt.Sprintf] makes of a schema ([%v]) and of a parameter item ([%+v]). *)
Class Externals := {
  typeForRef : string -> string;
  sanitizeOperationName : string -> string;
  generateOperationName : string -> string -> string;
  Sprintf_v : Schema -> string;
  Sprintf_plus_v : ParametersItem -> string;
  Kind_STRUCT : Kind;
  Kind_MAP : Kind;
  Position_BODY : Position;
  Position_HEADER : Position;
  Position_FORMDATA : Position;
  Position_QUERY : Position;
  Position_PATH : Position }.

(** Field-wise assignments on the surface messages. *)
Definition set_Field_Name (v : string) (f : Field) : Field :=
  mkField v (Field_Type f) (Field_ValueType f) (Field_Format f)
          (Field_Position f) (Field_Serialize f).
Definition set_Field_Type (v : string) (f : Field) : Field :=
  mkField (Field_Name f) v (Field_ValueType f) (Field_Format f)
          (Field_Position f) (Field_Serialize f).
Definition set_Field_ValueType (v : string) (f : Field) : Field :=
  mkField (Field_Name f) (Field_Type f) v (Field_Format f)
          (Field_Position f) (Field_Serialize f).
Definition set_Field_Format (v : string) (f : Field) : Field :=
  mkField (Field_Name f) (Field_Type f) (Field_ValueType f) v
          (Field_Position f) (Field_Serialize f).
Definition set_Field_Position (v : Position) (f : Field) : Field :=
  mkField (Field_Name f) (Field_Type f) (Field_ValueType f) (Field_Format f)
          v (Field_Serialize f).
Definition set_Field_Serialize (v : bool) (f : Field) : Field :=
  mkField (Field_Name f) (Field_Type f) (Field_ValueType f) (Field_Format f)
          (Field_Position f) v.

Definition set_Type_Name (v : string) (t : Type_) : Type_ :=
  mkType v (Type_Description t) (Type_Kind t) (Type_Fields t) (Type_MapType t).
Definition set_Type_Description (v : string) (t : Type_) : Type_ :=
  mkType (Type_Name t) v (Type_Kind t) (Type_Fields t) (Type_MapType t).
Definition set_Type_Kind (v : Kind) (t : Type_) : Type_ :=
  mkType (Type_Name t) (Type_Description t) v (Type_Fields t) (Type_MapType t).
Definition set_Type_Fields (v : list Field) (t : Type_) : Type_ :=
  mkType (Type_Name t) (Type_Description t) (Type_Kind t) v (Type_MapType t).
Definition set_Type_MapType (v : string) (t : Type_) : Type_ :=
  mkType (Type_Name t) (Type_Description t) (Type_Kind t) (Type_Fields t) v.

Definition set_Method_Name (v : string) (m : Method) : Method :=
  mkMethod (Method_Operation m) (Method_Path m) (Method_Method m)
           (Method_Description m) v (Method_ParametersTypeName m)
           (Method_ResponsesTypeName m).
Definition set_Method_ParametersTypeName (v : string) (m : Method) : Method :=
  mkMethod (Method_Operation m) (Method_Path m) (Method_Method m)
           (Method_Description m) (Method_Name m) v
           (Method_ResponsesTypeName m).
Definition set_Method_ResponsesTypeName (v : string) (m : Method) : Method :=
  mkMethod (Method_Operation m) (Method_Path m) (Method_Method m)
           (Method_Description m) (Method_Name m)
           (Method_ParametersTypeName m) v.

Definition set_Model_Name (v : string) (m : Model) : Model :=
  mkModel v (Model_Types m) (Model_Methods m).
Definition set_Model_Types (v : list Type_) (m : Model) : Model :=
  mkModel (Model_Name m) v (Model_Methods m).
Definition set_Model_Methods (v : list Method) (m : Model) : Model :=
  mkModel (Model_Name m) (Model_Types m) v.

(** ** Outcomes and the builder monad

    A call either returns or panics on a nil dereference.  The methods of
    [OpenAPI2Builder] that touch [b.model] thread the model through. *)
Inductive outcome (A : Type) : Type :=
| Returned (a : A)
| Panicked.
Arguments Returned {A} a.
Arguments Panicked {A}.

(** Go's [error]: [None] is nil. *)
Definition error := option string.

Definition Builder (A : Type) : Type := Model -> outcome (A * Model).

Definition ret {A} (a : A) : Builder A := fun m => Returned (a, m).

Definition bind {A B} (c : Builder A) (k : A -> Builder B) : Builder B :=
  fun m => match c m with
           | Returned (a, m') => k a m'
           | Panicked => Panicked
           end.

Definition panic {A} : Builder A := fun _ => Panicked.

Definition get_model : Builder Model := fun m => Returned (m, m).

Definition modify (f : Model -> Model) : Builder unit :=
  fun m => Returned (tt, f m).

Definition lift {A} (o : outcome A) : Builder A :=
  fun m => match o with
           | Returned a => Returned (a, m)
           | Panicked => Panicked
           end.

Declare Scope builder_scope.
Delimit Scope builder_scope with builder.
Notation "x <- c ;; k" := (bind c (fun x => k))
  (at level 61, c at next level, right associativity) : builder_scope.
Notation "c ;; k" := (bind c (fun _ => k))
  (at level 61, right associativity) : builder_scope.

(** [for _, x := range xs { body x }] with a body that never leaves the loop. *)
Fixpoint for_each {A} (xs : list A) (body : A -> Builder unit) : Builder unit :=
  match xs with
  | [] => ret tt
  | x :: xs' => bind (body x) (fun _ => for_each xs' body)
  end.

(** [if o != nil { body o }]. *)
Definition if_not_nil {A} (o : option A) (body : A -> Builder unit) : Builder unit :=
  match o with
  | Some a => body a
  | None => ret tt
  end.

(** ** The builder *)
Section Builder.
Context {E : Externals}.
Local Open Scope builder_scope.

(** [len(xs) == 1 && xs[0] == s]. *)
Definition single_is (xs : list string) (s : string) : bool :=
  match xs with
  | [x] => x =? s
  | _ => false
  end.

(** [typeForSchema]: the Go type name used for a schema. *)
Definition typeForSchema (schema : Schema) : string :=
  let ref := XRef schema in
  if negb (ref =? "") then typeForRef ref else
  (* what follows the [schema.Type != nil] block *)
  let after_type :=
    match AdditionalProperties schema with
    | Some additionalProperties =>
      match AdditionalPropertiesItem_GetSchema (Some additionalProperties) with
      | Some propertySchema =>
        let ref := XRef propertySchema in
        if negb (ref =? "") then "map[string]" ++ typeForRef ref
        else Sprintf_v schema
      | None => Sprintf_v schema
      end
    | None => Sprintf_v schema
    end in
  match Schema_Type schema with
  | Some type_item =>
    let types := TypeItem_Value type_item in
    let format := Format schema in
    if single_is types "string" then "string" else
    if single_is types "integer" && (format =? "int32") then "int32" else
    if single_is types "integer" then "int" else
    if single_is types "number" then "int" else
    (* what follows the array block *)
    let after_array :=
      if single_is types "object"
         && match AdditionalProperties schema with None => true | Some _ => false end
      then "map[string]interface{}"
      else after_type in
    match (if single_is types "array" then Items schema else None) with
    | Some items_item =>
      match ItemsItem_Schema items_item with
      | [item] =>
        if negb (XRef item =? "") then "[]" ++ typeForRef (XRef item)
        else after_array
      | _ => after_array
      end
    | None => after_array
    end
  | None => after_type
  end.

(** [buildTypeFromDefinition]: reading [XRef] through the nil that
    [GetSchema] gives for the boolean clause panics. *)
Definition buildTypeFromDefinition (name : string) (schema : Schema)
  : outcome (Type_ * error) :=
  let err : error := None in
  let t := zeroType in
  let t := set_Type_Name name t in
  let t := set_Type_Description ("implements the service definition of " ++ name) t in
  let t := set_Type_Fields [] t in
  let t :=
    match Properties schema with
    | Some properties =>
      let t :=
        if (0 <? length (Properties_AdditionalProperties properties))%nat
        then set_Type_Kind Kind_STRUCT t
        else t in
      fold_left
        (fun t pair2 =>
           let f := zeroField in
           let f := set_Field_Name (NamedSchema_Name pair2) f in
           let f := set_Field_Type (typeForSchema (NamedSchema_Value pair2)) f in
           let f := set_Field_Serialize true f in
           addField t f)
        (Properties_AdditionalProperties properties) t
    | None => t
    end in
  if (length (Type_Fields t) =? 0)%nat then
    match AdditionalProperties schema with
    | Some additionalProperties =>
      match AdditionalPropertiesItem_GetSchema (Some additionalProperties) with
      | Some s =>
        let mapType := typeForRef (XRef s) in
        let t := set_Type_Kind Kind_MAP t in
        let t := set_Type_MapType mapType t in
        Returned (t, err)
      | None => Panicked
      end
    | None => Returned (t, err)
    end
  else Returned (t, err).

(** The body of the loop of [buildTypeFromParameters]: the field is added
    only when the item holds a parameter. *)
Definition parameterField (parametersItem : ParametersItem) : option Field :=
  let f := zeroField in
  let f := set_Field_Type (Sprintf_plus_v parametersItem) f in
  match ParametersItem_GetParameter parametersItem with
  | Some parameter =>
    let f :=
      match Parameter_GetBodyParameter parameter with
      | Some bodyParameter =>
        let f := set_Field_Name (BodyParameter_Name bodyParameter) f in
        let f :=
          match BodyParameter_Schema bodyParameter with
          | Some s => set_Field_Type (typeForSchema s) f
          | None => f
          end in
        set_Field_Position Position_BODY f
      | None => f
      end in
    let f :=
      match Parameter_GetNonBodyParameter parameter with
      | Some nonBodyParameter =>
        let f :=
          match NonBodyParameter_GetHeaderParameterSubSchema nonBodyParameter with
          | Some headerParameter =>
            set_Field_Position Position_HEADER
              (set_Field_Type (HeaderParameterSubSchema_Type headerParameter)
                 (set_Field_Name (HeaderParameterSubSchema_Name headerParameter) f))
          | None => f
          end in
        let f :=
          match NonBodyParameter_GetFormDataParameterSubSchema nonBodyParameter with
          | Some formDataParameter =>
            set_Field_Position Position_FORMDATA
              (set_Field_Type (FormDataParameterSubSchema_Type formDataParameter)
                 (set_Field_Name (FormDataParameterSubSchema_Name formDataParameter) f))
          | None => f
          end in
        let f :=
          match NonBodyParameter_GetQueryParameterSubSchema nonBodyParameter with
          | Some queryParameter =>
            set_Field_Position Position_QUERY
              (set_Field_Type (QueryParameterSubSchema_Type queryParameter)
                 (set_Field_Name (QueryParameterSubSchema_Name queryParameter) f))
          | None => f
          end in
        match NonBodyParameter_GetPathParameterSubSchema nonBodyParameter with
        | Some pathParameter =>
          set_Field_Position Position_PATH
            (set_Field_Format (PathParameterSubSchema_Format pathParameter)
               (set_Field_Type (PathParameterSubSchema_Type pathParameter)
                  (set_Field_Name (PathParameterSubSchema_Name pathParameter) f)))
        | None => f
        end
      | None => f
      end in
    Some (set_Field_Serialize true f)
  | None => None
  end.

Definition buildTypeFromParameters (name : string) (parameters : list ParametersItem)
  : Builder (string * error) :=
  let err : error := None in
  let t := zeroType in
  let t := set_Type_Name (name ++ "Parameters") t in
  let t := set_Type_Description (Type_Name t ++ " holds parameters to " ++ name) t in
  let t := set_Type_Kind Kind_STRUCT t in
  let t := set_Type_Fields [] t in
  let t :=
    fold_left
      (fun t parametersItem =>
         match parameterField parametersItem with
         | Some f => addField t f
         | None => t
         end)
      parameters t in
  if (0 <? length (Type_Fields t))%nat then
    modify (fun model => addType model t) ;;
    ret (Type_Name t, err)
  else ret ("", err).

(** The body of the loop of [buildTypeFromResponses]. *)
Definition responseField (responseCode : NamedResponseValue) : option Field :=
  let f := zeroField in
  let f := set_Field_Name (NamedResponseValue_Name responseCode) f in
  let f := set_Field_Serialize false f in
  match ResponseValue_GetResponse (NamedResponseValue_Value responseCode) with
  | Some response =>
    match Response_Schema response with
    | Some schema_item =>
      match SchemaItem_GetSchema schema_item with
      | Some s =>
        let f := set_Field_ValueType (typeForSchema s) f in
        let f := set_Field_Type ("*" ++ Field_ValueType f) f in
        Some f
      | None => None
      end
    | None => None
    end
  | None => None
  end.

Definition buildTypeFromResponses (m : Method) (name : string)
    (responses : option Responses) : Builder (string * error) :=
  let err : error := None in
  let t := zeroType in
  let t := set_Type_Name (name ++ "Responses") t in
  let t := set_Type_Description (Type_Name t ++ " holds responses of " ++ name) t in
  let t := set_Type_Kind Kind_STRUCT t in
  let t := set_Type_Fields [] t in
  match responses with
  | None => panic
  | Some responses =>
    let t :=
      fold_left
        (fun t responseCode =>
           match responseField responseCode with
           | Some f => addField t f
           | None => t
           end)
        (ResponseCode responses) t in
    if (0 <? length (Type_Fields t))%nat then
      modify (fun model => addType model t) ;;
      ret (Type_Name t, err)
    else ret ("", err)
  end.

Definition buildMethodFromOperation (op : Operation) (method : string) (path : string)
  : Builder error :=
  let m := mkMethod (OperationId op) path method (Operation_Description op) "" "" "" in
  let m := set_Method_Name (sanitizeOperationName (OperationId op)) m in
  let m :=
    if Method_Name m =? "" then set_Method_Name (generateOperationName method path) m
    else m in
  r <- buildTypeFromParameters (Method_Name m) (Operation_Parameters op) ;;
  let m := set_Method_ParametersTypeName (fst r) m in
  r <- buildTypeFromResponses m (Method_Name m) (Operation_Responses op) ;;
  let m := set_Method_ResponsesTypeName (fst r) m in
  let err := snd r in
  modify (fun model => addMethod model m) ;;
  ret err.

(** The loop over the definitions: a non-nil [err] leaves [build] with it. *)
Fixpoint build_definitions (pairs : list NamedSchema) : Builder error :=
  match pairs with
  | [] => ret None
  | entry :: pairs' =>
    r <- lift (buildTypeFromDefinition (NamedSchema_Name entry) (NamedSchema_Value entry)) ;;
    match snd r with
    | Some e => ret (Some e)
    | None =>
      modify (fun model => addType model (fst r)) ;;
      build_definitions pairs'
    end
  end.

(** The body of the loop over the paths. *)
Definition build_path (entry : NamedPathItem) : Builder unit :=
  let v := NamedPathItem_Value entry in
  if_not_nil (Get v) (fun op =>
    _ <- buildMethodFromOperation op "GET" (NamedPathItem_Name entry) ;; ret tt) ;;
  if_not_nil (Post v) (fun op =>
    _ <- buildMethodFromOperation op "POST" (NamedPathItem_Name entry) ;; ret tt) ;;
  if_not_nil (Put v) (fun op =>
    _ <- buildMethodFromOperation op "PUT" (NamedPathItem_Name entry) ;; ret tt) ;;
  if_not_nil (Delete v) (fun op =>
    _ <- buildMethodFromOperation op "DELETE" (NamedPathItem_Name entry) ;; ret tt).

Definition build (document : Document) : Builder error :=
  let err : error := None in
  returned <-
    match Document_Definitions document with
    | Some definitions =>
      build_definitions (Definitions_AdditionalProperties definitions)
    | None => ret None
    end ;;
  match returned with
  | Some e => ret (Some e)
  | None =>
    match Document_Paths document with
    | None => panic
    | Some paths =>
      for_each (Path paths) build_path ;;
      ret err
    end
  end.

Definition buildModel (document : Document) : Builder (option Model * error) :=
  match Document_Info document with
  | None => panic
  | Some info =>
    modify (set_Model_Name (Title info)) ;;
    modify (set_Model_Types []) ;;
    modify (set_Model_Methods []) ;;
    err <- build document ;;
    match err with
    | Some e => ret (None, Some e)
    | None => model <- get_model ;; ret (Some model, None)
    end
  end.

(** [newOpenAPI2Builder] starts from an empty model. *)
Definition NewModelFromOpenAPI2 (document : Document) : outcome (option Model * error) :=
  match buildModel document zeroModel with
  | Returned (r, _) => Returned r
  | Panicked => Panicked
  end.

End Builder.

(** ** Notions used to state the properties *)

(** The first-match rules of the type inference, as the design document
    lists them: a named reference; a single declared type that is a string,
    an integer, a number, an array of one referenced item or an object with
    no additional-properties clause; an additional-properties clause whose
    schema is a named reference. *)
Definition has_ref (s : Schema) : bool := negb (XRef s =? "").

Definition single_referenced_item (s : Schema) : bool :=
  match Items s with
  | Some items_item =>
    match ItemsItem_Schema items_item with
    | [item] => has_ref item
    | _ => false
    end
  | None => false
  end.

Definition no_additionalProperties (s : Schema) : bool :=
  match AdditionalProperties s with
  | None => true
  | Some _ => false
  end.

Definition single_type_rule (s : Schema) : bool :=
  match Schema_Type s with
  | Some {| TypeItem_Value := [ty] |} =>
    (ty =? "string") || (ty =? "integer") || (ty =? "number")
    || ((ty =? "array") && single_referenced_item s)
    || ((ty =? "object") && no_additionalProperties s)
  | _ => false
  end.

Definition additionalProperties_ref_rule (s : Schema) : bool :=
  match AdditionalPropertiesItem_GetSchema (AdditionalProperties s) with
  | Some propertySchema => has_ref propertySchema
  | None => false
  end.

Definition recognized (s : Schema) : bool :=
  has_ref s || single_type_rule s || additionalProperties_ref_rule s.

(** The declared properties of a definition, none when the section is absent. *)
Definition declared_properties (s : Schema) : list NamedSchema :=
  match Properties s with
  | Some properties => Properties_AdditionalProperties properties
  | None => []
  end.

(** A definition is safe to translate when, having no declared property, its
    additional-properties clause (if any) holds a schema object. *)
Definition schema_in_clause (s : Schema) : Prop :=
  declared_properties s = [] ->
  forall clause, AdditionalProperties s = Some clause ->
  exists value, AdditionalPropertiesItem_GetSchema (Some clause) = Some value.

(** The schema carried by the response a status-code entry resolves to. *)
Definition response_schema (responseCode : NamedResponseValue) : option Schema :=
  match ResponseValue_Oneof (NamedResponseValue_Value responseCode) with
  | Some (ResponseValue_Response
            {| Response_Schema :=
                 Some {| SchemaItem_Oneof := Some (SchemaItem_Schema s) |} |}) =>
    Some s
  | _ => None
  end.

(** The fields a loop collects: one per item for which the body makes one. *)
Definition fields_of {A} (body : A -> option Field) (xs : list A) : list Field :=
  flat_map (fun x => match body x with Some f => [f] | None => [] end) xs.

(** The (verb, path) pairs of a path item that the builder visits, in order. *)
Definition present (verb : string) (path : string) (op : option Operation)
  : list (string * string) :=
  match op with
  | Some _ => [(verb, path)]
  | None => []
  end.

Definition modeled_verbs (entry : NamedPathItem) : list (string * string) :=
  let v := NamedPathItem_Value entry in
  let path := NamedPathItem_Name entry in
  (present "GET" path (Get v) ++ present "POST" path (Post v)
   ++ present "PUT" path (Put v) ++ present "DELETE" path (Delete v))%list.

(** The operations of a path item that the builder visits. *)
Definition modeled_operations (v : PathItem) : list Operation :=
  flat_map (fun o => match o with Some op => [op] | None => [] end)
           [Get v; Post v; Put v; Delete v].

(** A document the builder translates without a nil dereference. *)
Definition translatable (document : Document) : Prop :=
  (exists info, Document_Info document = Some info) /\
  (exists paths, Document_Paths document = Some paths /\
     forall entry op,
       In entry (Path paths) ->
       In op (modeled_operations (NamedPathItem_Value entry)) ->
       exists responses, Operation_Responses op = Some responses) /\
  (forall definitions entry,
     Document_Definitions document = Some definitions ->
     In entry (Definitions_AdditionalProperties definitions) ->
     schema_in_clause (NamedSchema_Value entry)).

(** ** A concrete choice of the externals, to run the builder on documents *)

(** Modelled from the spec: [typeForRef] turns a [#/definitions/Foo] pointer
    into the bare name [Foo]; here, what follows the last slash. *)
Fixpoint last_segment (acc s : string) : string :=
  match s with
  | EmptyString => acc
  | String c s' =>
    if Ascii.eqb c "/"%char then last_segment "" s'
    else last_segment (acc ++ String c "") s'
  end.

Definition sample_externals : Externals := {|
  typeForRef := last_segment "";
  sanitizeOperationName := fun name => name;
  generateOperationName := fun method path => method ++ path;
  Sprintf_v := fun s => "&{" ++ XRef s ++ "}";
  Sprintf_plus_v := fun _ => "&{}";
  Kind_STRUCT := 1%Z;
  Kind_MAP := 2%Z;
  Position_BODY := 1%Z;
  Position_HEADER := 2%Z;
  Position_FORMDATA := 3%Z;
  Position_QUERY := 4%Z;
  Position_PATH := 5%Z |}.

(** Schemas and documents used as examples. *)
Definition plain_schema : Schema := mkSchema "" "" None None None None.

Definition ref_schema (ref : string) : Schema :=
  mkSchema ref "" None None None None.

Definition typed_schema (types : list string) : Schema :=
  mkSchema "" "" (Some {| TypeItem_Value := types |}) None None None.

Definition boolean_clause (b : bool) : AdditionalPropertiesItem :=
  mkAdditionalPropertiesItem (Some (AdditionalPropertiesItem_Boolean b)).

Definition schema_clause (s : Schema) : AdditionalPropertiesItem :=
  mkAdditionalPropertiesItem (Some (AdditionalPropertiesItem_Schema s)).

(** [{additionalProperties: true}]: an object open to any further member. *)
Definition free_form_schema : Schema :=
  mkSchema "" "" None None None (Some (boolean_clause true)).

Definition empty_operation : Operation := {|
  OperationId := "";
  Operation_Description := "";
  Operation_Parameters := [];
  Operation_Responses := Some {| ResponseCode := [] |} |}.

(** A titled document with no path whose only definition is free-form. *)
Definition free_form_document : Document := {|
  Document_Info := Some {| Title := "Free" |};
  Document_Definitions :=
    Some {| Definitions_AdditionalProperties :=
              [mkNamedSchema "Anything" free_form_schema] |};
  Document_Paths := Some {| Path := [] |} |}.

(** A document whose info section has no title. *)
Definition untitled_document : Document := {|
  Document_Info := Some {| Title := "" |};
  Document_Definitions := None;
  Document_Paths := Some {| Path := [] |} |}.

(** The pet-store document of the design document's round-trip scenario. *)
Definition pets_document : Document := {|
  Document_Info := Some {| Title := "Pets" |};
  Document_Definitions :=
    Some {| Definitions_AdditionalProperties :=
      [mkNamedSchema "Pet"
         (mkSchema "" "" None None
            (Some (mkProperties [mkNamedSchema "name" (typed_schema ["string"])]))
            None)] |};
  Document_Paths :=
    Some {| Path :=
      [{| NamedPathItem_Name := "/pets/{id}";
          NamedPathItem_Value := {|
            Get := Some {|
              OperationId := "getPet";
              Operation_Description := "";
              Operation_Parameters :=
                [{| ParametersItem_Oneof := Some (ParametersItem_Parameter
                     {| Parameter_Oneof := Some (Parameter_NonBodyParameter
                        {| NonBodyParameter_Oneof :=
                             Some (NonBodyParameter_PathParameterSubSchema
                               {| PathParameterSubSchema_Name := "id";
                                  PathParameterSubSchema_Type := "string";
                                  PathParameterSubSchema_Format := "" |}) |}) |}) |}];
              Operation_Responses :=
                Some {| ResponseCode :=
                  [{| NamedResponseValue_Name := "200";
                      NamedResponseValue_Value :=
                        {| ResponseValue_Oneof := Some (ResponseValue_Response
                             {| Response_Description := "";
                                Response_Schema :=
                                  Some {| SchemaItem_Oneof :=
                                    Some (SchemaItem_Schema
                                            (ref_schema "#/definitions/Pet")) |} |}) |} |}] |} |};
            Put := None; Post := None; Delete := None;
            Options := None; Head := None; Patch := None |} |}] |} |}.

(** The field made for a declared property, and the one made for a
    status-code entry whose response carries the schema [s]. *)
Definition propertyField {E : Externals} (pair2 : NamedSchema) : Field :=
  mkField (NamedSchema_Name pair2) (typeForSchema (NamedSchema_Value pair2))
          "" "" 0%Z true.

Definition schemaResponseField {E : Externals} (code : string) (s : Schema) : Field :=
  mkField code ("*" ++ typeForSchema s) (typeForSchema s) "" 0%Z false.

(** The verb and path of a method. *)
Definition method_key (m : Method) : string * string :=
  (Method_Method m, Method_Path m).

(** A path item that exposes nothing but a PATCH operation. *)
Definition patch_only (op : Operation) : PathItem := {|
  Get := None; Put := None; Post := None; Delete := None;
  Options := None; Head := None; Patch := Some op |}.

Definition patch_only_document : Document := {|
  Document_Info := Some {| Title := "Patch" |};
  Document_Definitions := None;
  Document_Paths :=
    Some {| Path := [{| NamedPathItem_Name := "/pets";
                        NamedPathItem_Value := patch_only empty_operation |}] |} |}.

(** A parameter item that is a reference, and one that is a query parameter. *)
Definition reference_item : ParametersItem :=
  {| ParametersItem_Oneof :=
       Some (ParametersItem_JsonReference {| JsonReference_XRef := "#/parameters/limit" |}) |}.

Definition query_item (name ty : string) : ParametersItem :=
  {| ParametersItem_Oneof := Some (ParametersItem_Parameter
       {| Parameter_Oneof := Some (Parameter_NonBodyParameter
            {| NonBodyParameter_Oneof :=
                 Some (NonBodyParameter_QueryParameterSubSchema
                         {| QueryParameterSubSchema_Name := name;
                            QueryParameterSubSchema_Type := ty |}) |}) |}) |}.

(** A status-code entry with a response that carries [s], and one without
    a schema. *)
Definition schema_response (code : string) (s : Schema) : NamedResponseValue :=
  {| NamedResponseValue_Name := code;
     NamedResponseValue_Value :=
       {| ResponseValue_Oneof := Some (ResponseValue_Response
            {| Response_Description := "";
               Response_Schema :=
                 Some {| SchemaItem_Oneof := Some (SchemaItem_Schema s) |} |}) |} |}.

Definition empty_response (code : string) : NamedResponseValue :=
  {| NamedResponseValue_Name := code;
     NamedResponseValue_Value :=
       {| ResponseValue_Oneof := Some (ResponseValue_Response
            {| Response_Description := ""; Response_Schema := None |}) |} |}.

(** [model'] is [model] with methods appended whose verbs and paths are
    [keys]; the name is the same. *)
Definition grows_by (keys : list (string * string)) (model model' : Model) : Prop :=
  Model_Name model' = Model_Name model /\
  exists methods,
    Model_Methods model' = (Model_Methods model ++ methods)%list /\
    map method_key methods = keys.

(** Modelled from the spec: [sanitizeOperationName] is outside this file; the
    design document has it turn an operation identifier into a legal
    identifier, so it is taken to return the empty string on the empty
    identifier only. *)
Definition sanitizer_keeps_emptiness {E : Externals} (id : string) : Prop :=
  sanitizeOperationName id = "" <-> id = "".

(** A titled document whose only operation has no responses section. *)
Definition no_responses_document : Document := {|
  Document_Info := Some {| Title := "Pets" |};
  Document_Definitions := None;
  Document_Paths :=
    Some {| Path :=
      [{| NamedPathItem_Name := "/pets";
          NamedPathItem_Value := {|
            Get := Some {| OperationId := "listPets";
                           Operation_Description := "";
                           Operation_Parameters := [];
                           Operation_Responses := None |};
            Put := None; Post := None; Delete := None;
            Options := None; Head := None; Patch := None |} |}] |} |}.

(** ** Notions used to state further properties of the builder *)

(** The item holds a parameter (and not a reference). *)
Definition has_parameter (item : ParametersItem) : bool :=
  match ParametersItem_GetParameter item with
  | Some _ => true
  | None => false
  end.

(** The type names a method refers to: those that are not empty. *)
Definition nonempty_name (s : string) : list string :=
  if s =? "" then [] else [s].

Definition referenced_types (m : Method) : list string :=
  (nonempty_name (Method_ParametersTypeName m)
   ++ nonempty_name (Method_ResponsesTypeName m))%list.

(** A type as the parameter and response translators register them. *)
Definition synthesized {E : Externals} (t : Type_) : Prop :=
  Type_Kind t = Kind_STRUCT /\ Type_Fields t <> [].

(** The definitions of a document, none when the section is absent. *)
Definition definitions_of (document : Document) : list NamedSchema :=
  match Document_Definitions document with
  | Some definitions => Definitions_AdditionalProperties definitions
  | None => []
  end.

(** [model'] is [model] with the types [types] and the methods [methods]
    appended; the name is the same. *)
Definition appended (types : list Type_) (methods : list Method)
    (model model' : Model) : Prop :=
  Model_Name model' = Model_Name model /\
  Model_Types model' = (Model_Types model ++ types)%list /\
  Model_Methods model' = (Model_Methods model ++ methods)%list.

(** A path item, and a document, with the operations under OPTIONS, HEAD
    and PATCH replaced. *)
Definition with_other_verbs (options head patch : option Operation) (v : PathItem)
  : PathItem := {|
  Get := Get v; Put := Put v; Post := Post v; Delete := Delete v;
  Options := options; Head := head; Patch := patch |}.

Definition map_path_items (change : PathItem -> PathItem) (document : Document)
  : Document := {|
  Document_Info := Document_Info document;
  Document_Definitions := Document_Definitions document;
  Document_Paths :=
    match Document_Paths document with
    | Some paths =>
      Some {| Path :=
        map (fun entry =>
               {| NamedPathItem_Name := NamedPathItem_Name entry;
                  NamedPathItem_Value := change (NamedPathItem_Value entry) |})
            (Path paths) |}
    | None => None
    end |}.

(** A body parameter item and a path parameter item. *)
Definition body_item (name : string) (s : option Schema) : ParametersItem :=
  {| ParametersItem_Oneof := Some (ParametersItem_Parameter
       {| Parameter_Oneof := Some (Parameter_BodyParameter
            {| BodyParameter_Name := name; BodyParameter_Schema := s |}) |}) |}.

Definition non_body_item (n : isNonBodyParameter_Oneof) : ParametersItem :=
  {| ParametersItem_Oneof := Some (ParametersItem_Parameter
       {| Parameter_Oneof := Some (Parameter_NonBodyParameter
            {| NonBodyParameter_Oneof := Some n |}) |}) |}.

(** What a loop has appended: the types are those the methods refer to, in
    the order of the methods, and the methods are those of [keys]. *)
Definition consistent {E : Externals} (keys : list (string * string)) (types : list Type_)
    (methods : list Method) : Prop :=
  map Type_Name types = flat_map referenced_types methods /\
  Forall synthesized types /\
  map method_key methods = keys.

(** ** A renderer that prints set fields only *)

Definition quote : string := String (Ascii.ascii_of_nat 34) "".

Definition text_field (name value : string) : string :=
  if value =? "" then "" else name ++ ":" ++ quote ++ value ++ quote ++ " ".

Definition text_message {A} (name : string) (m : option A) : string :=
  match m with
  | Some _ => name ++ ":<> "
  | None => ""
  end.

(** A rendering of a schema in the style of the text format that the
    [String] method of a generated message prints: a field that is not set
    prints nothing, so the schema with no field set renders as the empty
    string.  Nested messages other than the declared types are abbreviated. *)
Definition text_format (schema : Schema) : string :=
  text_field "x_ref" (XRef schema)
  ++ text_field "format" (Format schema)
  ++ match Schema_Type schema with
     | Some type_item =>
       "type:<"
       ++ String.concat ""
            (map (fun value => text_field "value" value) (TypeItem_Value type_item))
       ++ "> "
     | None => ""
     end
  ++ text_message "items" (Items schema)
  ++ text_message "properties" (Properties schema)
  ++ text_message "additional_properties" (AdditionalProperties schema).

Definition text_format_externals : Externals := {|
  typeForRef := last_segment "";
  sanitizeOperationName := fun name => name;
  generateOperationName := fun method path => method ++ path;
  Sprintf_v := text_format;
  Sprintf_plus_v := fun _ => "";
  Kind_STRUCT := 1%Z;
  Kind_MAP := 2%Z;
  Position_BODY := 1%Z;
  Position_HEADER := 2%Z;
  Position_FORMDATA := 3%Z;
  Position_QUERY := 4%Z;
  Position_PATH := 5%Z |}.

(** ** The model as the sum of what each definition and operation gives *)

(** The calls of [buildMethodFromOperation] that the loop over the paths
    makes for a path item: operation, verb and path, in order. *)
Definition call (verb path : string) (o : option Operation)
  : list (Operation * string * string) :=
  match o with
  | Some op => [(op, verb, path)]
  | None => []
  end.

Definition modeled_calls (entry : NamedPathItem)
  : list (Operation * string * string) :=
  let v := NamedPathItem_Value entry in
  let path := NamedPathItem_Name entry in
  (call "GET" path (Get v) ++ call "POST" path (Post v)
   ++ call "PUT" path (Put v) ++ call "DELETE" path (Delete v))%list.

(** What one operation gives when it is translated alone, into an empty
    model: its types and its method. *)
Definition operation_contribution {E : Externals}
    (c : Operation * string * string) : Model :=
  match buildMethodFromOperation (fst (fst c)) (snd (fst c)) (snd c) zeroModel with
  | Returned (_, model) => model
  | Panicked => zeroModel
  end.

(** What one definition gives: its type. *)
Definition definition_contribution {E : Externals} (entry : NamedSchema)
  : list Type_ :=
  match buildTypeFromDefinition (NamedSchema_Name entry) (NamedSchema_Value entry) with
  | Returned (t, _) => [t]
  | Panicked => []
  end.

(** [model] with the types and methods of [contributions] appended. *)
Definition extend (model : Model) (contributions : list Model) : Model :=
  mkModel (Model_Name model)
          (Model_Types model ++ flat_map Model_Types contributions)%list
          (Model_Methods model ++ flat_map Model_Methods contributions)%list.

(** The model named [title] that holds the types of the definitions, then
    the types of the operations, and the methods of the operations. *)
Definition assembled_model {E : Externals} (title : string)
    (definitions : list NamedSchema) (entries : list NamedPathItem) : Model :=
  extend (mkModel title (flat_map definition_contribution definitions) [])
         (map operation_contribution (flat_map modeled_calls entries)).

(** * Properties *)

(** ** Sanity checks on concrete inputs *)

Example last_segment_pointer : last_segment "" "#/definitions/Pet" = "Pet".
Proof. reflexivity. Qed.

Example pets_model :
  @NewModelFromOpenAPI2 sample_externals pets_document =
  Returned
    (Some {|
       Model_Name := "Pets";
       Model_Types :=
         [mkType "Pet" "implements the service definition of Pet" 1%Z
                 [mkField "name" "string" "" "" 0%Z true] "";
          mkType "getPetParameters" "getPetParameters holds parameters to getPet" 1%Z
                 [mkField "id" "string" "" "" 5%Z true] "";
          mkType "getPetResponses" "getPetResponses holds responses of getPet" 1%Z
                 [mkField "200" "*Pet" "Pet" "" 0%Z false] ""];
       Model_Methods :=
         [mkMethod "getPet" "/pets/{id}" "GET" "" "getPet"
                   "getPetParameters" "getPetResponses"] |},
     None).
Proof. reflexivity. Qed.

(** ** The type inference *)
Section TypeInference.
Context {E : Externals}.

Lemma single_is_one (ty s : string) : single_is [ty] s = (ty =? s).
Proof. reflexivity. Qed.

(** A schema with a named reference is typed by it. *)
Lemma typeForSchema_ref (schema : Schema) :
  XRef schema <> "" -> typeForSchema schema = typeForRef (XRef schema).
Proof.
  intros Href. unfold typeForSchema.
  apply String.eqb_neq in Href. rewrite Href. reflexivity.
Qed.

(** C1: a schema with a non-empty named reference is typed by the
    normalized reference, [typeForRef] of it, whatever its format, declared
    types, items, properties and additional-properties clause are. *)
Theorem typeForSchema_ref_takes_precedence
    (ref format : string) (types : option TypeItem) (items : option ItemsItem)
    (properties : option Properties_)
    (additionalProperties : option AdditionalPropertiesItem) :
  ref <> "" ->
  typeForSchema (mkSchema ref format types items properties additionalProperties)
  = typeForRef ref.
Proof.
  intros Href.
  exact (typeForSchema_ref
           (mkSchema ref format types items properties additionalProperties)
           Href).
Qed.

(** C2: with no named reference and exactly one declared type, ["string"]
    gives [string]; ["integer"] gives [int32] under format ["int32"] and
    [int] under any other format; ["number"] gives [int]; ["array"] with a
    single item schema that is a named reference gives [[]] followed by the
    normalized reference; ["object"] with no additional-properties clause
    gives [map[string]interface{}]. *)
Theorem typeForSchema_single_declared_type (schema : Schema) (ty : string) :
  XRef schema = "" ->
  Schema_Type schema = Some {| TypeItem_Value := [ty] |} ->
  (ty = "string" -> typeForSchema schema = "string") /\
  (ty = "integer" -> Format schema = "int32" -> typeForSchema schema = "int32") /\
  (ty = "integer" -> Format schema <> "int32" -> typeForSchema schema = "int") /\
  (ty = "number" -> typeForSchema schema = "int") /\
  (ty = "array" ->
   forall item, Items schema = Some (mkItemsItem [item]) -> XRef item <> "" ->
   typeForSchema schema = "[]" ++ typeForRef (XRef item)) /\
  (ty = "object" -> AdditionalProperties schema = None ->
   typeForSchema schema = "map[string]interface{}").
Proof.
  intros Href Hty. unfold typeForSchema.
  rewrite Href, Hty. cbn [negb String.eqb TypeItem_Value].
  rewrite !single_is_one.
  repeat split.
  - intros ->. reflexivity.
  - intros -> ->. reflexivity.
  - intros -> Hfmt. apply String.eqb_neq in Hfmt. rewrite Hfmt. reflexivity.
  - intros ->. reflexivity.
  - intros -> item Hitems Hitem. rewrite Hitems.
    apply String.eqb_neq in Hitem. cbn. rewrite Hitem. reflexivity.
  - intros -> Hnone. rewrite Hnone. reflexivity.
Qed.

(** When no rule recognizes the schema, the rendering of the schema is the
    type name. *)
Lemma typeForSchema_unrecognized (schema : Schema) :
  recognized schema = false -> typeForSchema schema = Sprintf_v schema.
Proof.
  unfold recognized. intros H.
  apply orb_false_iff in H. destruct H as [H H3].
  apply orb_false_iff in H. destruct H as [H1 H2].
  unfold typeForSchema. fold (has_ref schema). rewrite H1.
  assert (Hafter :
    match AdditionalProperties schema with
    | Some additionalProperties =>
      match AdditionalPropertiesItem_GetSchema (Some additionalProperties) with
      | Some propertySchema =>
        if negb (XRef propertySchema =? "")
        then "map[string]" ++ typeForRef (XRef propertySchema)
        else Sprintf_v schema
      | None => Sprintf_v schema
      end
    | None => Sprintf_v schema
    end = Sprintf_v schema).
  { unfold additionalProperties_ref_rule in H3.
    destruct (AdditionalProperties schema) as [clause|]; [|reflexivity].
    destruct (AdditionalPropertiesItem_GetSchema (Some clause)) as [p|];
      [|reflexivity].
    unfold has_ref in H3. rewrite H3. reflexivity. }
  cbv zeta. rewrite Hafter. clear Hafter H3.
  unfold single_type_rule, single_referenced_item, no_additionalProperties,
    has_ref in H2.
  destruct (Schema_Type schema) as [[types]|]; [|reflexivity].
  cbn [TypeItem_Value].
  destruct types as [|ty [|ty' types]]; try reflexivity.
  rewrite !single_is_one.
  repeat (apply orb_false_iff in H2; destruct H2 as [H2 ?]).
  rewrite H2.
  match goal with H : (ty =? "integer") = false |- _ => rewrite H end.
  match goal with H : (ty =? "number") = false |- _ => rewrite H end.
  cbn [andb].
  destruct (ty =? "object"); cbn [andb] in *.
  - match goal with H : match AdditionalProperties schema with _ => _ end = false
      |- _ => rewrite H end.
    destruct (ty =? "array"); [|reflexivity].
    cbn [andb] in *.
    destruct (Items schema) as [[items]|]; [|reflexivity].
    cbn [ItemsItem_Schema] in *.
    destruct items as [|item [|item' items]]; try reflexivity.
    match goal with H : negb _ = false |- _ => rewrite H end. reflexivity.
  - destruct (ty =? "array"); [|reflexivity].
    cbn [andb] in *.
    destruct (Items schema) as [[items]|]; [|reflexivity].
    cbn [ItemsItem_Schema] in *.
    destruct items as [|item [|item' items]]; try reflexivity.
    match goal with H : negb _ = false |- _ => rewrite H end. reflexivity.
Qed.

End TypeInference.

Lemma typeForSchema_ref_takes_precedence_witness :
  @typeForSchema sample_externals
    (mkSchema "#/definitions/Pet" "int32"
       (Some {| TypeItem_Value := ["integer"] |})
       (Some (mkItemsItem [plain_schema]))
       None (Some (boolean_clause true)))
  = "Pet".
Proof.
  apply (@typeForSchema_ref_takes_precedence sample_externals).
  discriminate.
Defined.

Lemma typeForSchema_single_declared_type_witness :
  @typeForSchema sample_externals
    (mkSchema "" "" (Some {| TypeItem_Value := ["array"] |})
       (Some (mkItemsItem [ref_schema "#/definitions/Pet"])) None None)
  = "[]Pet".
Proof.
  refine (proj1 (proj2 (proj2 (proj2 (proj2
    (@typeForSchema_single_declared_type sample_externals
       (mkSchema "" "" (Some {| TypeItem_Value := ["array"] |})
          (Some (mkItemsItem [ref_schema "#/definitions/Pet"])) None None)
       "array" eq_refl eq_refl))))) eq_refl (ref_schema "#/definitions/Pet") eq_refl _).
  discriminate.
Defined.

(** ** Loops that collect fields *)

Lemma set_Type_Fields_same (t : Type_) : set_Type_Fields (Type_Fields t) t = t.
Proof. destruct t. reflexivity. Qed.

Lemma fold_addField_all {A} (make : A -> Field) (xs : list A) (t : Type_) :
  fold_left (fun t x => addField t (make x)) xs t
  = set_Type_Fields (Type_Fields t ++ map make xs)%list t.
Proof.
  revert t. induction xs as [|x xs IH]; intros t; cbn [fold_left map].
  - rewrite app_nil_r. symmetry. apply set_Type_Fields_same.
  - rewrite IH. destruct t. unfold addField, set_Type_Fields.
    cbn. rewrite <- app_assoc. reflexivity.
Qed.

Lemma fold_addField_some {A} (body : A -> option Field) (xs : list A) (t : Type_) :
  fold_left (fun t x => match body x with
                        | Some f => addField t f
                        | None => t
                        end) xs t
  = set_Type_Fields (Type_Fields t ++ fields_of body xs)%list t.
Proof.
  revert t. induction xs as [|x xs IH]; intros t;
    cbn [fold_left fields_of flat_map].
  - rewrite app_nil_r. symmetry. apply set_Type_Fields_same.
  - rewrite IH. fold (fields_of body xs).
    destruct (body x) as [f|]; [|reflexivity].
    destruct t. unfold addField, set_Type_Fields.
    cbn. rewrite <- app_assoc. reflexivity.
Qed.

Lemma fields_of_nil_iff {A} (body : A -> option Field) (xs : list A) :
  fields_of body xs = [] <-> forall x, In x xs -> body x = None.
Proof.
  induction xs as [|x xs IH]; cbn [fields_of flat_map].
  - split; [intros _ y []|reflexivity].
  - fold (fields_of body xs). split.
    + intros H y [Heq|Hy].
      * subst y. destruct (body x); [discriminate|reflexivity].
      * apply app_eq_nil in H. apply IH; tauto.
    + intros H. rewrite (H x (or_introl eq_refl)). apply IH.
      intros y Hy. apply H. right. exact Hy.
Qed.

(** ** The definition translator *)
Section DefinitionTranslator.
Context {E : Externals}.

(** What [buildTypeFromDefinition] does, case by case. *)
Lemma buildTypeFromDefinition_cases (name : string) (schema : Schema) :
  buildTypeFromDefinition name schema =
  let description := "implements the service definition of " ++ name in
  match declared_properties schema with
  | _ :: _ =>
    Returned (mkType name description Kind_STRUCT
                (map propertyField (declared_properties schema)) "", None)
  | [] =>
    match AdditionalProperties schema with
    | None => Returned (mkType name description 0%Z [] "", None)
    | Some clause =>
      match AdditionalPropertiesItem_GetSchema (Some clause) with
      | Some s =>
        Returned (mkType name description Kind_MAP [] (typeForRef (XRef s)), None)
      | None => Panicked
      end
    end
  end.
Proof.
  unfold buildTypeFromDefinition, declared_properties.
  destruct (Properties schema) as [[properties]|];
    cbn [Properties_AdditionalProperties].
  - change (fold_left _ properties ?t0)
      with (fold_left (fun acc x => addField acc (propertyField x)) properties t0).
    rewrite fold_addField_all.
    destruct properties as [|pair2 properties].
    + cbn. destruct (AdditionalProperties schema) as [clause|]; [|reflexivity].
      destruct (AdditionalPropertiesItem_GetSchema (Some clause)); reflexivity.
    + reflexivity.
  - cbn. destruct (AdditionalProperties schema) as [clause|]; [|reflexivity].
    destruct (AdditionalPropertiesItem_GetSchema (Some clause)); reflexivity.
Qed.

(** With at least one declared property: a struct with one serialized field
    per property, typed by the type inference. *)
Lemma buildTypeFromDefinition_struct (name : string) (schema : Schema) :
  declared_properties schema <> [] ->
  exists t,
    buildTypeFromDefinition name schema = Returned (t, None) /\
    Type_Name t = name /\
    Type_Kind t = Kind_STRUCT /\
    Type_Fields t = map propertyField (declared_properties schema) /\
    length (Type_Fields t) = length (declared_properties schema) /\
    (forall f, In f (Type_Fields t) -> Field_Serialize f = true).
Proof.
  intros Hprops. rewrite buildTypeFromDefinition_cases. cbv zeta.
  destruct (declared_properties schema) as [|pair2 properties] eqn:Hd;
    [congruence|].
  eexists. split; [reflexivity|]. cbn [Type_Name Type_Kind Type_Fields].
  repeat split.
  - apply length_map.
  - intros f Hf. apply in_map_iff in Hf. destruct Hf as [x [<- _]]. reflexivity.
Qed.

(** With no declared property and an additional-properties clause that is a
    named reference: a map to the inferred type of that reference. *)
Lemma buildTypeFromDefinition_map (name : string) (schema s : Schema) :
  declared_properties schema = [] ->
  AdditionalProperties schema = Some (schema_clause s) ->
  XRef s <> "" ->
  exists t,
    buildTypeFromDefinition name schema = Returned (t, None) /\
    Type_Name t = name /\
    Type_Kind t = Kind_MAP /\
    Type_Fields t = [] /\
    Type_MapType t = typeForSchema s.
Proof.
  intros Hprops Hclause Href. rewrite buildTypeFromDefinition_cases. cbv zeta.
  rewrite Hprops, Hclause. cbn.
  eexists. split; [reflexivity|]. cbn.
  rewrite (typeForSchema_ref s Href). auto.
Qed.

(** With neither declared properties nor an additional-properties clause:
    a type with no kind assigned and no field. *)
Lemma buildTypeFromDefinition_plain (name : string) (schema : Schema) :
  declared_properties schema = [] ->
  AdditionalProperties schema = None ->
  exists t,
    buildTypeFromDefinition name schema = Returned (t, None) /\
    Type_Name t = name /\
    Type_Kind t = 0%Z /\
    Type_Fields t = [].
Proof.
  intros Hprops Hclause. rewrite buildTypeFromDefinition_cases. cbv zeta.
  rewrite Hprops, Hclause. eexists. split; [reflexivity|]. cbn. auto.
Qed.

(** C4: on the definition [{additionalProperties: true}], which declares no
    property and carries no additional-properties reference, the definition
    translator does not return a type: it panics. *)
Theorem buildTypeFromDefinition_free_form_panics :
  buildTypeFromDefinition "Anything" free_form_schema = Panicked.
Proof. reflexivity. Qed.

(** The outcome of [buildTypeFromDefinition] is a panic or a type with a
    nil error. *)
Lemma buildTypeFromDefinition_outcome (name : string) (schema : Schema) :
  buildTypeFromDefinition name schema = Panicked \/
  exists t, buildTypeFromDefinition name schema = Returned (t, None).
Proof.
  rewrite buildTypeFromDefinition_cases. cbv zeta.
  destruct (declared_properties schema);
    [destruct (AdditionalProperties schema) as [clause|];
     [destruct (AdditionalPropertiesItem_GetSchema (Some clause))|]|];
    solve [left; reflexivity | right; eexists; reflexivity].
Qed.

Lemma buildTypeFromDefinition_panics_iff (name : string) (schema : Schema) :
  buildTypeFromDefinition name schema = Panicked <->
  declared_properties schema = [] /\
  exists clause,
    AdditionalProperties schema = Some clause /\
    AdditionalPropertiesItem_GetSchema (Some clause) = None.
Proof.
  rewrite buildTypeFromDefinition_cases. cbv zeta.
  destruct (declared_properties schema) as [|pair2 properties].
  - destruct (AdditionalProperties schema) as [clause|].
    + destruct (AdditionalPropertiesItem_GetSchema (Some clause)) as [s|] eqn:Hget.
      * split; [discriminate|].
        intros [_ [c [Hc Hnone]]]. inversion Hc; subst c. congruence.
      * split; [|reflexivity].
        intros _. split; [reflexivity|]. exists clause. auto.
    + split; [discriminate|]. intros [_ [c [Hc _]]]. discriminate.
  - split; [discriminate|]. intros [Hnil _]. discriminate.
Qed.

(** The schemas on which [buildTypeFromDefinition] returns. *)
Lemma buildTypeFromDefinition_returns_iff (name : string) (schema : Schema) :
  (schema_in_clause schema <->
   exists t, buildTypeFromDefinition name schema = Returned (t, None)) /\
  (schema_in_clause schema <-> buildTypeFromDefinition name schema <> Panicked).
Proof.
  assert (Hsafe : schema_in_clause schema <->
                  buildTypeFromDefinition name schema <> Panicked).
  { rewrite buildTypeFromDefinition_panics_iff. unfold schema_in_clause. split.
    - intros H [Hnil [clause [Hc Hnone]]].
      destruct (H Hnil clause Hc) as [v Hv]. congruence.
    - intros H Hnil clause Hc.
      destruct (AdditionalPropertiesItem_GetSchema (Some clause)) as [v|] eqn:Hget.
      + exists v. reflexivity.
      + exfalso. apply H. split; [exact Hnil|]. exists clause. auto. }
  split; [|exact Hsafe].
  rewrite Hsafe.
  destruct (buildTypeFromDefinition_outcome name schema) as [Hp|[t Ht]].
  - rewrite Hp. split; [congruence|]. intros [t Ht]. discriminate.
  - rewrite Ht. split; [intros _; exists t; reflexivity|discriminate].
Qed.

(** C10: [buildTypeFromDefinition] returns (a type and a nil error) exactly
    on the schemas that, when they declare no property and have an
    additional-properties clause, hold a schema object in it; on a schema
    with no declared property whose clause holds a boolean it panics, reading
    [XRef] through the nil that [GetSchema] returned. *)
Theorem buildTypeFromDefinition_nil_dereference (name : string) (schema : Schema) :
  (schema_in_clause schema <->
   exists t, buildTypeFromDefinition name schema = Returned (t, None)) /\
  (schema_in_clause schema <-> buildTypeFromDefinition name schema <> Panicked) /\
  (forall b,
     declared_properties schema = [] ->
     AdditionalProperties schema = Some (boolean_clause b) ->
     AdditionalPropertiesItem_GetSchema (AdditionalProperties schema) = None /\
     buildTypeFromDefinition name schema = Panicked).
Proof.
  destruct (buildTypeFromDefinition_returns_iff name schema)
    as [Hreturns Hsafe].
  split; [exact Hreturns|]. split; [exact Hsafe|].
  intros b Hnil Hclause. split.
  - rewrite Hclause. reflexivity.
  - apply buildTypeFromDefinition_panics_iff. split; [exact Hnil|].
    exists (boolean_clause b). split; [exact Hclause|reflexivity].
Qed.

End DefinitionTranslator.

Lemma buildTypeFromDefinition_nil_dereference_witness :
  @buildTypeFromDefinition sample_externals "Anything" free_form_schema = Panicked.
Proof.
  exact (proj2 (proj2 (proj2
    (@buildTypeFromDefinition_nil_dereference sample_externals
       "Anything" free_form_schema)) true eq_refl eq_refl)).
Defined.

(** ** The parameter and response translators *)
Section ParameterAndResponseTranslators.
Context {E : Externals}.

Lemma parameterField_None (item : ParametersItem) :
  parameterField item = None <-> ParametersItem_GetParameter item = None.
Proof.
  unfold parameterField.
  destruct (ParametersItem_GetParameter item); split; congruence.
Qed.

(** What [buildTypeFromParameters] does, by the fields its loop collects. *)
Lemma buildTypeFromParameters_cases
    (name : string) (parameters : list ParametersItem) (model : Model) :
  buildTypeFromParameters name parameters model =
  match fields_of parameterField parameters with
  | [] => Returned (("", None), model)
  | fields =>
    Returned
      ((name ++ "Parameters", None),
       addType model
         (mkType (name ++ "Parameters")
                 ((name ++ "Parameters") ++ " holds parameters to " ++ name)
                 Kind_STRUCT fields ""))
  end.
Proof.
  unfold buildTypeFromParameters. rewrite fold_addField_some.
  cbn -[fields_of String.append].
  destruct (fields_of parameterField parameters); reflexivity.
Qed.

Lemma responseField_schema (entry : NamedResponseValue) :
  responseField entry
  = option_map (schemaResponseField (NamedResponseValue_Name entry))
               (response_schema entry).
Proof.
  unfold responseField, response_schema, ResponseValue_GetResponse,
    SchemaItem_GetSchema.
  destruct (ResponseValue_Oneof (NamedResponseValue_Value entry))
    as [[[d [[[[s|fs]|]]|]]|j]|]; reflexivity.
Qed.

(** What [buildTypeFromResponses] does on a responses section that is
    there, by the fields its loop collects. *)
Lemma buildTypeFromResponses_cases
    (m : Method) (name : string) (responses : Responses) (model : Model) :
  buildTypeFromResponses m name (Some responses) model =
  match fields_of responseField (ResponseCode responses) with
  | [] => Returned (("", None), model)
  | fields =>
    Returned
      ((name ++ "Responses", None),
       addType model
         (mkType (name ++ "Responses")
                 ((name ++ "Responses") ++ " holds responses of " ++ name)
                 Kind_STRUCT fields ""))
  end.
Proof.
  unfold buildTypeFromResponses. rewrite fold_addField_some.
  cbn -[fields_of String.append].
  destruct (fields_of responseField (ResponseCode responses)); reflexivity.
Qed.

(** C5: when the parameter list yields no field (it is empty, or no entry
    holds a parameter), the parameter translator returns the empty name and
    leaves the model as it was; when it yields a field, the type holding the
    fields is appended to the model's types and its name is returned.  The
    response translator does the same with the fields of the response map. *)
Theorem empty_type_is_discarded
    (m : Method) (name : string) (parameters : list ParametersItem)
    (responses : Responses) (model : Model) :
  ((forall item, In item parameters -> ParametersItem_GetParameter item = None) <->
   fields_of parameterField parameters = []) /\
  (fields_of parameterField parameters = [] ->
   buildTypeFromParameters name parameters model = Returned (("", None), model)) /\
  (fields_of parameterField parameters <> [] ->
   exists t,
     buildTypeFromParameters name parameters model
     = Returned ((Type_Name t, None), addType model t) /\
     Type_Name t = name ++ "Parameters" /\
     Type_Fields t = fields_of parameterField parameters) /\
  (fields_of responseField (ResponseCode responses) = [] ->
   buildTypeFromResponses m name (Some responses) model
   = Returned (("", None), model)) /\
  (fields_of responseField (ResponseCode responses) <> [] ->
   exists t,
     buildTypeFromResponses m name (Some responses) model
     = Returned ((Type_Name t, None), addType model t) /\
     Type_Name t = name ++ "Responses" /\
     Type_Fields t = fields_of responseField (ResponseCode responses)).
Proof.
  rewrite buildTypeFromParameters_cases, buildTypeFromResponses_cases.
  split; [|split; [|split; [|split]]].
  - rewrite fields_of_nil_iff. split; intros H item Hin.
    + apply parameterField_None. auto.
    + apply parameterField_None. auto.
  - intros ->. reflexivity.
  - intros Hfields.
    destruct (fields_of parameterField parameters) as [|f fields];
      [congruence|].
    exists (mkType (name ++ "Parameters")
                   ((name ++ "Parameters") ++ " holds parameters to " ++ name)
                   Kind_STRUCT (f :: fields) "").
    cbn. auto.
  - intros ->. reflexivity.
  - intros Hfields.
    destruct (fields_of responseField (ResponseCode responses)) as [|f fields];
      [congruence|].
    exists (mkType (name ++ "Responses")
                   ((name ++ "Responses") ++ " holds responses of " ++ name)
                   Kind_STRUCT (f :: fields) "").
    cbn. auto.
Qed.

(** C6: a status-code entry whose response carries a schema gives a field
    named after the status code, whose value type is the inferred type of
    the schema, whose type is ["*"] followed by that value type, and which
    is not serialized; an entry without such a schema gives no field; the
    responses type holds the fields of the entries that carry a schema, in
    the order of the entries. *)
Theorem response_fields
    (m : Method) (name : string) (responses : Responses) (model : Model) :
  (forall entry s,
     response_schema entry = Some s ->
     exists f,
       responseField entry = Some f /\
       Field_Name f = NamedResponseValue_Name entry /\
       Field_ValueType f = typeForSchema s /\
       Field_Type f = "*" ++ typeForSchema s /\
       Field_Serialize f = false) /\
  (forall entry, response_schema entry = None -> responseField entry = None) /\
  buildTypeFromResponses m name (Some responses) model
  = match fields_of
            (fun entry =>
               option_map (schemaResponseField (NamedResponseValue_Name entry))
                          (response_schema entry))
            (ResponseCode responses)
    with
    | [] => Returned (("", None), model)
    | fields =>
      Returned
        ((name ++ "Responses", None),
         addType model
           (mkType (name ++ "Responses")
                   ((name ++ "Responses") ++ " holds responses of " ++ name)
                   Kind_STRUCT fields ""))
    end.
Proof.
  split; [|split].
  - intros entry s Hs. rewrite responseField_schema, Hs. cbn.
    eexists. split; [reflexivity|]. cbn. auto.
  - intros entry Hs. rewrite responseField_schema, Hs. reflexivity.
  - rewrite buildTypeFromResponses_cases.
    assert (Hext : fields_of responseField (ResponseCode responses)
                   = fields_of
                       (fun entry =>
                          option_map
                            (schemaResponseField (NamedResponseValue_Name entry))
                            (response_schema entry))
                       (ResponseCode responses)).
    { unfold fields_of. apply flat_map_ext. intros entry.
      rewrite responseField_schema. reflexivity. }
    rewrite <- Hext. reflexivity.
Qed.

End ParameterAndResponseTranslators.

Lemma empty_type_is_discarded_witness :
  @buildTypeFromParameters sample_externals "listPets"
    [reference_item; query_item "limit" "integer"] zeroModel
  = Returned
      (("listPetsParameters", None),
       addType zeroModel
         (mkType "listPetsParameters"
                 "listPetsParameters holds parameters to listPets" 1%Z
                 [mkField "limit" "integer" "" "" 4%Z true] "")) /\
  @buildTypeFromParameters sample_externals "listPets" [reference_item] zeroModel
  = Returned (("", None), zeroModel) /\
  @buildTypeFromResponses sample_externals zeroMethod "listPets"
    (Some {| ResponseCode := [empty_response "204"] |}) zeroModel
  = Returned (("", None), zeroModel).
Proof.
  split; [|split].
  - destruct (proj1 (proj2 (proj2
      (@empty_type_is_discarded sample_externals zeroMethod "listPets"
         [reference_item; query_item "limit" "integer"]
         {| ResponseCode := [] |} zeroModel))))
      as [t [Ht _]]; [discriminate|].
    reflexivity.
  - apply (proj1 (proj2
      (@empty_type_is_discarded sample_externals zeroMethod "listPets"
         [reference_item] {| ResponseCode := [] |} zeroModel))).
    reflexivity.
  - apply (proj1 (proj2 (proj2 (proj2
      (@empty_type_is_discarded sample_externals zeroMethod "listPets"
         [] {| ResponseCode := [empty_response "204"] |} zeroModel))))).
    reflexivity.
Defined.

Lemma response_fields_witness :
  @responseField sample_externals
    (schema_response "200" (ref_schema "#/definitions/Pet"))
  = Some (mkField "200" "*Pet" "Pet" "" 0%Z false) /\
  @responseField sample_externals (empty_response "204") = None.
Proof.
  split.
  - destruct (proj1
      (@response_fields sample_externals zeroMethod "getPet"
         {| ResponseCode := [] |} zeroModel)
      (schema_response "200" (ref_schema "#/definitions/Pet"))
      (ref_schema "#/definitions/Pet") eq_refl) as [f [Hf _]].
    reflexivity.
  - apply (proj1 (proj2
      (@response_fields sample_externals zeroMethod "getPet"
         {| ResponseCode := [] |} zeroModel))).
    reflexivity.
Defined.

(** ** Methods and the model *)
Section ModelAssembler.
Context {E : Externals}.

Lemma grows_by_refl (model : Model) : grows_by [] model model.
Proof.
  split; [reflexivity|]. exists []. rewrite app_nil_r. auto.
Qed.

Lemma grows_by_trans (keys1 keys2 : list (string * string))
    (model1 model2 model3 : Model) :
  grows_by keys1 model1 model2 -> grows_by keys2 model2 model3 ->
  grows_by (keys1 ++ keys2) model1 model3.
Proof.
  intros [Hn1 [ms1 [Hm1 Hk1]]] [Hn2 [ms2 [Hm2 Hk2]]]. split.
  - congruence.
  - exists (ms1 ++ ms2)%list. split.
    + rewrite Hm2, Hm1, app_assoc. reflexivity.
    + rewrite map_app. congruence.
Qed.

Lemma grows_by_addType (model : Model) (t : Type_) :
  grows_by [] model (addType model t).
Proof.
  split; [reflexivity|]. exists []. cbn. rewrite app_nil_r. auto.
Qed.

(** The translators of parameters and responses return, with a nil error,
    and leave the name and the methods of the model alone. *)
Lemma buildTypeFromParameters_returns
    (name : string) (parameters : list ParametersItem) (model : Model) :
  exists typeName model',
    buildTypeFromParameters name parameters model
    = Returned ((typeName, None), model') /\
    grows_by [] model model'.
Proof.
  rewrite buildTypeFromParameters_cases.
  destruct (fields_of parameterField parameters).
  - do 2 eexists. split; [reflexivity|apply grows_by_refl].
  - do 2 eexists. split; [reflexivity|apply grows_by_addType].
Qed.

Lemma buildTypeFromResponses_returns
    (m : Method) (name : string) (responses : Responses) (model : Model) :
  exists typeName model',
    buildTypeFromResponses m name (Some responses) model
    = Returned ((typeName, None), model') /\
    grows_by [] model model'.
Proof.
  rewrite buildTypeFromResponses_cases.
  destruct (fields_of responseField (ResponseCode responses)).
  - do 2 eexists. split; [reflexivity|apply grows_by_refl].
  - do 2 eexists. split; [reflexivity|apply grows_by_addType].
Qed.

(** An operation with a responses section becomes one method, appended to
    the model. *)
Lemma buildMethodFromOperation_returns
    (op : Operation) (method path : string) (responses : Responses)
    (model : Model) :
  Operation_Responses op = Some responses ->
  exists m model',
    buildMethodFromOperation op method path model = Returned (None, model') /\
    Model_Name model' = Model_Name model /\
    Model_Methods model' = (Model_Methods model ++ [m])%list /\
    Method_Operation m = OperationId op /\
    Method_Path m = path /\
    Method_Method m = method /\
    Method_Name m =
      (if sanitizeOperationName (OperationId op) =? ""
       then generateOperationName method path
       else sanitizeOperationName (OperationId op)).
Proof.
  intros Hresponses. unfold buildMethodFromOperation, bind. rewrite Hresponses.
  cbn [set_Method_Name Method_Name Method_Operation Method_Path Method_Method
       Method_Description Method_ParametersTypeName Method_ResponsesTypeName].
  destruct (sanitizeOperationName (OperationId op) =? "");
    cbn [set_Method_Name set_Method_ParametersTypeName Method_Name
         Method_Operation Method_Path Method_Method Method_Description
         Method_ParametersTypeName Method_ResponsesTypeName];
    (match goal with
     | |- context [buildTypeFromParameters ?n ?ps model] =>
       destruct (buildTypeFromParameters_returns n ps model)
         as [ptn [model1 [Hp [Hn1 [ms1 [Hm1 Hk1]]]]]]
     end);
    rewrite Hp;
    cbn [fst snd set_Method_Name set_Method_ParametersTypeName Method_Name
         Method_Operation Method_Path Method_Method Method_Description
         Method_ParametersTypeName Method_ResponsesTypeName];
    (match goal with
     | |- context [buildTypeFromResponses ?m0 ?n (Some responses) ?md] =>
       destruct (buildTypeFromResponses_returns m0 n responses md)
         as [rtn [model2 [Hr [Hn2 [ms2 [Hm2 Hk2]]]]]]
     end);
    rewrite Hr; cbn [fst snd]; unfold modify, ret;
    apply map_eq_nil in Hk1, Hk2; subst ms1 ms2;
    rewrite app_nil_r in Hm1, Hm2;
    eexists; eexists; (split; [reflexivity|]);
    cbn; rewrite Hn2, Hn1, Hm2, Hm1;
    repeat (split; [reflexivity|]); reflexivity.
Qed.

(** C7: on an operation whose identifier is not empty the method is named
    by the sanitized identifier; on one whose identifier is empty it is
    named by [generateOperationName] of the verb and path alone, so another
    operation without identifier under the same verb and path gets the same
    name.  The sanitizer is taken to keep an identifier that is not empty
    from becoming empty, and the empty one empty. *)
Theorem method_name
    (op : Operation) (method path : string) (responses : Responses)
    (model : Model) :
  Operation_Responses op = Some responses ->
  sanitizer_keeps_emptiness (OperationId op) ->
  exists m model',
    buildMethodFromOperation op method path model = Returned (None, model') /\
    Model_Methods model' = (Model_Methods model ++ [m])%list /\
    (OperationId op <> "" ->
     Method_Name m = sanitizeOperationName (OperationId op)) /\
    (OperationId op = "" ->
     Method_Name m = generateOperationName method path /\
     forall op2 responses2 model2,
       OperationId op2 = "" ->
       Operation_Responses op2 = Some responses2 ->
       exists m2 model2',
         buildMethodFromOperation op2 method path model2
         = Returned (None, model2') /\
         Model_Methods model2' = (Model_Methods model2 ++ [m2])%list /\
         Method_Name m2 = Method_Name m).
Proof.
  intros Hresponses Hsanitize.
  destruct (buildMethodFromOperation_returns op method path responses model
              Hresponses) as [m [model' [Hrun [_ [Hms [_ [_ [_ Hname]]]]]]]].
  exists m, model'. split; [exact Hrun|]. split; [exact Hms|]. split.
  - intros Hid.
    destruct (String.eqb_spec (sanitizeOperationName (OperationId op)) "")
      as [Hempty|_]; [|exact Hname].
    apply Hsanitize in Hempty. contradiction.
  - intros Hid.
    assert (Hempty : sanitizeOperationName "" = "").
    { rewrite <- Hid at 1. apply Hsanitize. exact Hid. }
    split.
    + rewrite Hname, Hid, Hempty. reflexivity.
    + intros op2 responses2 model2 Hid2 Hresponses2.
      destruct (buildMethodFromOperation_returns op2 method path responses2
                  model2 Hresponses2)
        as [m2 [model2' [Hrun2 [_ [Hms2 [_ [_ [_ Hname2]]]]]]]].
      exists m2, model2'. split; [exact Hrun2|]. split; [exact Hms2|].
      rewrite Hname2, Hname, Hid2, Hid, Hempty. reflexivity.
Qed.

(** *** The loops of [build] *)

Lemma visit_verb (o : option Operation) (verb path : string) (model : Model) :
  (forall op, o = Some op ->
              exists responses, Operation_Responses op = Some responses) ->
  exists model',
    if_not_nil o
      (fun op => bind (buildMethodFromOperation op verb path) (fun _ => ret tt))
      model
    = Returned (tt, model') /\
    grows_by (present verb path o) model model'.
Proof.
  intros Hresponses. destruct o as [op|]; cbn [if_not_nil present].
  - destruct (Hresponses op eq_refl) as [responses Hr].
    destruct (buildMethodFromOperation_returns op verb path responses model Hr)
      as [m [model' [Hrun [Hn [Hms [_ [Hp [Hv _]]]]]]]].
    exists model'. unfold bind. rewrite Hrun. split; [reflexivity|].
    split; [exact Hn|]. exists [m]. split; [exact Hms|].
    cbn. unfold method_key. rewrite Hp, Hv. reflexivity.
  - exists model. split; [reflexivity|apply grows_by_refl].
Qed.

Lemma In_modeled_operations (v : PathItem) (op : Operation) :
  In op (modeled_operations v) <->
  Get v = Some op \/ Post v = Some op \/ Put v = Some op \/ Delete v = Some op.
Proof.
  unfold modeled_operations. cbn.
  destruct (Get v), (Post v), (Put v), (Delete v); cbn; split; intros H;
    repeat match goal with
           | H : _ \/ _ |- _ => destruct H
           | H : False |- _ => destruct H
           | H : Some _ = Some _ |- _ => inversion H; clear H; subst
           | H : None = Some _ |- _ => discriminate H
           end; subst; auto 6.
Qed.

Lemma build_path_returns (entry : NamedPathItem) (model : Model) :
  (forall op, In op (modeled_operations (NamedPathItem_Value entry)) ->
              exists responses, Operation_Responses op = Some responses) ->
  exists model',
    build_path entry model = Returned (tt, model') /\
    grows_by (modeled_verbs entry) model model'.
Proof.
  intros Hresponses. unfold build_path, modeled_verbs.
  set (v := NamedPathItem_Value entry) in *.
  set (path := NamedPathItem_Name entry).
  assert (Hget : forall op, Get v = Some op ->
                 exists responses, Operation_Responses op = Some responses).
  { intros op H. apply Hresponses, In_modeled_operations. auto. }
  assert (Hpost : forall op, Post v = Some op ->
                  exists responses, Operation_Responses op = Some responses).
  { intros op H. apply Hresponses, In_modeled_operations. auto. }
  assert (Hput : forall op, Put v = Some op ->
                 exists responses, Operation_Responses op = Some responses).
  { intros op H. apply Hresponses, In_modeled_operations. auto. }
  assert (Hdelete : forall op, Delete v = Some op ->
                    exists responses, Operation_Responses op = Some responses).
  { intros op H. apply Hresponses, In_modeled_operations. auto. }
  destruct (visit_verb (Get v) "GET" path model Hget) as [model1 [H1 G1]].
  destruct (visit_verb (Post v) "POST" path model1 Hpost) as [model2 [H2 G2]].
  destruct (visit_verb (Put v) "PUT" path model2 Hput) as [model3 [H3 G3]].
  destruct (visit_verb (Delete v) "DELETE" path model3 Hdelete)
    as [model4 [H4 G4]].
  exists model4. split.
  - unfold bind at 1. rewrite H1. unfold bind at 1. rewrite H2.
    unfold bind at 1. rewrite H3. exact H4.
  - exact (grows_by_trans _ _ _ _ _ G1
             (grows_by_trans _ _ _ _ _ G2 (grows_by_trans _ _ _ _ _ G3 G4))).
Qed.

Lemma for_each_build_path_returns (entries : list NamedPathItem) (model : Model) :
  (forall entry op,
     In entry entries ->
     In op (modeled_operations (NamedPathItem_Value entry)) ->
     exists responses, Operation_Responses op = Some responses) ->
  exists model',
    for_each entries build_path model = Returned (tt, model') /\
    grows_by (flat_map modeled_verbs entries) model model'.
Proof.
  revert model. induction entries as [|entry entries IH]; intros model Hresponses.
  - exists model. split; [reflexivity|apply grows_by_refl].
  - destruct (build_path_returns entry model) as [model1 [H1 G1]].
    { intros op. apply Hresponses. left. reflexivity. }
    destruct (IH model1) as [model2 [H2 G2]].
    { intros e op He. apply Hresponses. right. exact He. }
    exists model2. split.
    + cbn [for_each]. unfold bind. rewrite H1. exact H2.
    + cbn [flat_map]. exact (grows_by_trans _ _ _ _ _ G1 G2).
Qed.

(** The loop over the definitions never leaves [build] with an error. *)
Lemma build_definitions_outcome (pairs : list NamedSchema) (model : Model) :
  build_definitions pairs model = Panicked \/
  exists model', build_definitions pairs model = Returned (None, model').
Proof.
  revert model. induction pairs as [|entry pairs IH]; intros model.
  - right. exists model. reflexivity.
  - cbn [build_definitions]. unfold bind, lift.
    destruct (buildTypeFromDefinition_outcome (NamedSchema_Name entry)
                (NamedSchema_Value entry)) as [Hp|[t Ht]].
    + left. rewrite Hp. reflexivity.
    + rewrite Ht. cbn [fst snd]. unfold modify. apply IH.
Qed.

Lemma build_definitions_returns (pairs : list NamedSchema) (model : Model) :
  (forall entry, In entry pairs -> schema_in_clause (NamedSchema_Value entry)) ->
  exists model',
    build_definitions pairs model = Returned (None, model') /\
    grows_by [] model model'.
Proof.
  revert model. induction pairs as [|entry pairs IH]; intros model Hsafe.
  - exists model. split; [reflexivity|apply grows_by_refl].
  - cbn [build_definitions]. unfold bind, lift.
    destruct (proj1 (proj1 (buildTypeFromDefinition_returns_iff
                (NamedSchema_Name entry) (NamedSchema_Value entry)))
                (Hsafe entry (or_introl eq_refl))) as [t Ht].
    rewrite Ht. cbn [fst snd]. unfold modify.
    destruct (IH (addType model t)) as [model' [Hrun G]].
    { intros e He. apply Hsafe. right. exact He. }
    exists model'. split; [exact Hrun|].
    exact (grows_by_trans [] [] _ _ _ (grows_by_addType model t) G).
Qed.

(** *** [build] and [buildModel] *)

Lemma build_outcome (document : Document) (model : Model) :
  build document model = Panicked \/
  exists model', build document model = Returned (None, model').
Proof.
  unfold build, bind.
  assert (Hdefs :
    match Document_Definitions document with
    | Some definitions =>
      build_definitions (Definitions_AdditionalProperties definitions)
    | None => ret None
    end model = Panicked \/
    exists model1,
      match Document_Definitions document with
      | Some definitions =>
        build_definitions (Definitions_AdditionalProperties definitions)
      | None => ret None
      end model = Returned (None, model1)).
  { destruct (Document_Definitions document) as [definitions|].
    - apply build_definitions_outcome.
    - right. exists model. reflexivity. }
  destruct Hdefs as [Hp|[model1 H1]].
  - left. rewrite Hp. reflexivity.
  - rewrite H1. destruct (Document_Paths document) as [paths|].
    + destruct (for_each (Path paths) build_path model1) as [[[] model2]|].
      * right. exists model2. reflexivity.
      * left. reflexivity.
    + left. reflexivity.
Qed.

Lemma build_without_paths (document : Document) (model : Model) :
  Document_Paths document = None -> build document model = Panicked.
Proof.
  intros Hpaths. unfold build, bind. rewrite Hpaths.
  destruct (Document_Definitions document) as [definitions|].
  - destruct (build_definitions_outcome
                (Definitions_AdditionalProperties definitions) model)
      as [Hp|[model1 H1]].
    + rewrite Hp. reflexivity.
    + rewrite H1. reflexivity.
  - reflexivity.
Qed.

Lemma build_returns (document : Document) (model : Model) :
  translatable document ->
  exists paths model',
    Document_Paths document = Some paths /\
    build document model = Returned (None, model') /\
    grows_by (flat_map modeled_verbs (Path paths)) model model'.
Proof.
  intros [_ [[paths [Hpaths Hresponses]] Hsafe]].
  exists paths. unfold build, bind. rewrite Hpaths.
  assert (Hdefs :
    exists model1,
      match Document_Definitions document with
      | Some definitions =>
        build_definitions (Definitions_AdditionalProperties definitions)
      | None => ret None
      end model = Returned (None, model1) /\
      grows_by [] model model1).
  { destruct (Document_Definitions document) as [definitions|].
    - apply build_definitions_returns. intros entry. apply Hsafe. reflexivity.
    - exists model. split; [reflexivity|apply grows_by_refl]. }
  destruct Hdefs as [model1 [H1 G1]]. rewrite H1.
  destruct (for_each_build_path_returns (Path paths) model1 Hresponses)
    as [model2 [H2 G2]].
  exists model2. rewrite H2. split; [reflexivity|]. split; [reflexivity|].
  exact (grows_by_trans [] _ _ _ _ G1 G2).
Qed.

Lemma NewModelFromOpenAPI2_returns (document : Document) :
  translatable document ->
  exists info paths model,
    Document_Info document = Some info /\
    Document_Paths document = Some paths /\
    NewModelFromOpenAPI2 document = Returned (Some model, None) /\
    Model_Name model = Title info /\
    map method_key (Model_Methods model) = flat_map modeled_verbs (Path paths).
Proof.
  intros Hdoc. pose proof Hdoc as [[info Hinfo] _].
  destruct (build_returns document (mkModel (Title info) [] []) Hdoc)
    as [paths [model [Hpaths [Hrun [Hname [methods [Hmethods Hkeys]]]]]]].
  exists info, paths, model.
  split; [exact Hinfo|]. split; [exact Hpaths|].
  unfold NewModelFromOpenAPI2, buildModel. rewrite Hinfo.
  unfold bind, modify.
  change (set_Model_Methods []
            (set_Model_Types [] (set_Model_Name (Title info) zeroModel)))
    with (mkModel (Title info) [] []).
  rewrite Hrun. cbn. split; [reflexivity|]. split; [exact Hname|].
  rewrite Hmethods. exact Hkeys.
Qed.


End ModelAssembler.

Lemma method_name_witness :
  exists m model',
    @buildMethodFromOperation sample_externals
      {| OperationId := "getPet";
         Operation_Description := "";
         Operation_Parameters := [];
         Operation_Responses := Some {| ResponseCode := [] |} |}
      "GET" "/pets/{id}" zeroModel
    = Returned (None, model') /\
    Model_Methods model' = [m] /\
    Method_Name m = "getPet".
Proof.
  destruct (@method_name sample_externals
              {| OperationId := "getPet";
                 Operation_Description := "";
                 Operation_Parameters := [];
                 Operation_Responses := Some {| ResponseCode := [] |} |}
              "GET" "/pets/{id}" {| ResponseCode := [] |} zeroModel eq_refl)
    as [m [model' [Hrun [Hms [Hname _]]]]].
  - split; discriminate.
  - exists m, model'. split; [exact Hrun|]. split; [exact Hms|].
    apply Hname. discriminate.
Defined.

Lemma pets_document_translatable : translatable pets_document.
Proof.
  split; [|split].
  - eexists. reflexivity.
  - eexists. split; [reflexivity|].
    intros entry op [<-|[]] Hop. cbn in Hop.
    destruct Hop as [<-|[]]. eexists. reflexivity.
  - intros definitions entry Hd Hin. inversion Hd; subst definitions.
    destruct Hin as [<-|[]]. intros Hprops. discriminate Hprops.
Defined.



(** C9: a document may have its title and its paths section and still not
    be translated (an operation without responses section, or a definition
    that is free-form, makes the translation panic), and a document whose
    info section has no title is translated. *)
Lemma translation_fails_below_top_level :
  (Document_Info no_responses_document = Some {| Title := "Pets" |} /\
   (exists paths, Document_Paths no_responses_document = Some paths) /\
   @NewModelFromOpenAPI2 sample_externals no_responses_document = Panicked) /\
  (Document_Info free_form_document = Some {| Title := "Free" |} /\
   Document_Paths free_form_document = Some {| Path := [] |} /\
   @NewModelFromOpenAPI2 sample_externals free_form_document = Panicked) /\
  @NewModelFromOpenAPI2 sample_externals untitled_document
  = Returned (Some (mkModel "" [] []), None).
Proof.
  repeat split. eexists. reflexivity.
Qed.

(** The path item that exposes only PATCH gives no method. *)
Example patch_only_model :
  @NewModelFromOpenAPI2 sample_externals patch_only_document
  = Returned (Some (mkModel "Patch" [] []), None).
Proof. reflexivity. Qed.

(** * Further properties of the builder *)

(** ** The type inference: the additional-properties rule *)
Section TypeInferenceMaps.
Context {E : Externals}.

(** Without a named reference and without a matching single-type rule, the
    type is decided by the additional-properties clause alone. *)
Lemma typeForSchema_without_type_rule (schema : Schema) :
  XRef schema = "" ->
  single_type_rule schema = false ->
  typeForSchema schema =
  match AdditionalPropertiesItem_GetSchema (AdditionalProperties schema) with
  | Some propertySchema =>
    if has_ref propertySchema
    then "map[string]" ++ typeForRef (XRef propertySchema)
    else Sprintf_v schema
  | None => Sprintf_v schema
  end.
Proof.
  intros Href H2. unfold typeForSchema. rewrite Href.
  cbn [String.eqb negb].
  assert (Hafter :
    match AdditionalProperties schema with
    | Some additionalProperties =>
      match AdditionalPropertiesItem_GetSchema (Some additionalProperties) with
      | Some propertySchema =>
        if negb (XRef propertySchema =? "")
        then "map[string]" ++ typeForRef (XRef propertySchema)
        else Sprintf_v schema
      | None => Sprintf_v schema
      end
    | None => Sprintf_v schema
    end =
    match AdditionalPropertiesItem_GetSchema (AdditionalProperties schema) with
    | Some propertySchema =>
      if has_ref propertySchema
      then "map[string]" ++ typeForRef (XRef propertySchema)
      else Sprintf_v schema
    | None => Sprintf_v schema
    end).
  { destruct (AdditionalProperties schema) as [clause|]; reflexivity. }
  cbv zeta. rewrite Hafter. clear Hafter.
  set (after_type :=
         match AdditionalPropertiesItem_GetSchema (AdditionalProperties schema) with
         | Some propertySchema => _
         | None => _
         end).
  unfold single_type_rule, single_referenced_item, no_additionalProperties,
    has_ref in H2.
  destruct (Schema_Type schema) as [[types]|]; [|reflexivity].
  cbn [TypeItem_Value].
  destruct types as [|ty [|ty' types]]; try reflexivity.
  rewrite !single_is_one.
  repeat (apply orb_false_iff in H2; destruct H2 as [H2 ?]).
  rewrite H2.
  match goal with H : (ty =? "integer") = false |- _ => rewrite H end.
  match goal with H : (ty =? "number") = false |- _ => rewrite H end.
  cbn [andb].
  destruct (ty =? "object"); cbn [andb] in *.
  - match goal with H : match AdditionalProperties schema with _ => _ end = false
      |- _ => rewrite H end.
    destruct (ty =? "array"); [|reflexivity].
    cbn [andb] in *.
    destruct (Items schema) as [[items]|]; [|reflexivity].
    cbn [ItemsItem_Schema] in *.
    destruct items as [|item [|item' items]]; try reflexivity.
    match goal with H : negb _ = false |- _ => rewrite H end. reflexivity.
  - destruct (ty =? "array"); [|reflexivity].
    cbn [andb] in *.
    destruct (Items schema) as [[items]|]; [|reflexivity].
    cbn [ItemsItem_Schema] in *.
    destruct items as [|item [|item' items]]; try reflexivity.
    match goal with H : negb _ = false |- _ => rewrite H end. reflexivity.
Qed.

(** X1: a schema with no named reference that no single-type rule matches,
    and whose additional-properties clause holds a schema that is a named
    reference, is typed as the map from strings to that reference; so is, in
    particular, an ["object"] with such a clause. *)
Theorem typeForSchema_map_of_reference (schema value : Schema) :
  XRef schema = "" ->
  single_type_rule schema = false ->
  AdditionalProperties schema = Some (schema_clause value) ->
  XRef value <> "" ->
  typeForSchema schema = "map[string]" ++ typeForRef (XRef value) /\
  (forall format items properties,
     typeForSchema
       (mkSchema "" format (Some {| TypeItem_Value := ["object"] |}) items
                 properties (Some (schema_clause value)))
     = "map[string]" ++ typeForRef (XRef value)).
Proof.
  intros Href Hrule Hclause Hvalue.
  assert (Hhas : has_ref value = true).
  { unfold has_ref. apply String.eqb_neq in Hvalue. rewrite Hvalue. reflexivity. }
  split.
  - rewrite (typeForSchema_without_type_rule schema Href Hrule), Hclause.
    cbn. rewrite Hhas. reflexivity.
  - intros format items properties.
    rewrite typeForSchema_without_type_rule; [|reflexivity|reflexivity].
    cbn. rewrite Hhas. reflexivity.
Qed.

End TypeInferenceMaps.

Lemma typeForSchema_map_of_reference_witness :
  @typeForSchema sample_externals
    (mkSchema "" "" None None None
       (Some (schema_clause (ref_schema "#/definitions/Pet"))))
  = "map[string]Pet".
Proof.
  exact (proj1 (@typeForSchema_map_of_reference sample_externals
    (mkSchema "" "" None None None
       (Some (schema_clause (ref_schema "#/definitions/Pet"))))
    (ref_schema "#/definitions/Pet") eq_refl eq_refl eq_refl
    ltac:(discriminate))).
Defined.

(** ** The definition translator: the three outcomes *)
Section DefinitionTypes.
Context {E : Externals}.

(** X2: a definition with at least one declared property becomes a struct
    with one serialized field per property, in the order of the properties
    and named after them; the additional-properties clause is not read, so
    that even a boolean clause is harmless there, and the map value type
    stays empty. *)
Theorem definition_with_properties (name : string) (schema : Schema) :
  declared_properties schema <> [] ->
  buildTypeFromDefinition name schema
  = Returned
      (mkType name ("implements the service definition of " ++ name)
              Kind_STRUCT (map propertyField (declared_properties schema)) "",
       None) /\
  map Field_Name (map propertyField (declared_properties schema))
  = map NamedSchema_Name (declared_properties schema) /\
  map Field_Type (map propertyField (declared_properties schema))
  = map (fun pair2 => typeForSchema (NamedSchema_Value pair2))
        (declared_properties schema).
Proof.
  intros Hprops. rewrite buildTypeFromDefinition_cases. cbv zeta.
  destruct (declared_properties schema) as [|pair2 properties];
    [congruence|].
  split; [reflexivity|]. rewrite !map_map. split; reflexivity.
Qed.

(** X3: a definition without declared property (no properties section, or an
    empty one) whose additional-properties clause holds a schema becomes a
    map with no field whose value type is [typeForRef] of that schema's
    reference, whether the reference is empty or not; without a clause it
    keeps the zero kind, no field and no value type, whatever its own
    reference, declared types, format and items are. *)
Theorem definition_without_properties (name : string) (schema : Schema) :
  declared_properties schema = [] ->
  (forall value,
     AdditionalPropertiesItem_GetSchema (AdditionalProperties schema) = Some value ->
     buildTypeFromDefinition name schema
     = Returned
         (mkType name ("implements the service definition of " ++ name)
                 Kind_MAP [] (typeForRef (XRef value)),
          None)) /\
  (AdditionalProperties schema = None ->
   buildTypeFromDefinition name schema
   = Returned
       (mkType name ("implements the service definition of " ++ name)
               0%Z [] "",
        None)).
Proof.
  intros Hprops. rewrite buildTypeFromDefinition_cases. cbv zeta.
  rewrite Hprops. split.
  - intros value Hvalue.
    destruct (AdditionalProperties schema) as [clause|]; [|discriminate].
    rewrite Hvalue. reflexivity.
  - intros ->. reflexivity.
Qed.

End DefinitionTypes.

Lemma definition_with_properties_witness :
  @buildTypeFromDefinition sample_externals "Pet"
    (mkSchema "" "" None None
       (Some (mkProperties [mkNamedSchema "name" (typed_schema ["string"]);
                            mkNamedSchema "owner" (ref_schema "#/definitions/Person")]))
       (Some (boolean_clause true)))
  = Returned
      (mkType "Pet" "implements the service definition of Pet" 1%Z
              [mkField "name" "string" "" "" 0%Z true;
               mkField "owner" "Person" "" "" 0%Z true] "",
       None).
Proof.
  apply (proj1 (@definition_with_properties sample_externals "Pet"
    (mkSchema "" "" None None
       (Some (mkProperties [mkNamedSchema "name" (typed_schema ["string"]);
                            mkNamedSchema "owner" (ref_schema "#/definitions/Person")]))
       (Some (boolean_clause true)))
    ltac:(discriminate))).
Defined.

Lemma definition_without_properties_witness :
  @buildTypeFromDefinition sample_externals "Tags"
    (mkSchema "" "" (Some {| TypeItem_Value := ["object"] |}) None
       (Some (mkProperties []))
       (Some (schema_clause (typed_schema ["string"]))))
  = Returned
      (mkType "Tags" "implements the service definition of Tags" 2%Z [] "", None).
Proof.
  apply (proj1 (@definition_without_properties sample_externals "Tags"
    (mkSchema "" "" (Some {| TypeItem_Value := ["object"] |}) None
       (Some (mkProperties []))
       (Some (schema_clause (typed_schema ["string"]))))
    eq_refl) (typed_schema ["string"]) eq_refl).
Defined.

(** ** The parameter translator: the fields *)
Section ParameterFields.
Context {E : Externals}.

Lemma parameterField_serialized (item : ParametersItem) (f : Field) :
  parameterField item = Some f -> Field_Serialize f = true.
Proof.
  unfold parameterField.
  destruct (ParametersItem_GetParameter item); [|discriminate].
  intros H. inversion H. reflexivity.
Qed.

Lemma length_fields_of_parameterField (parameters : list ParametersItem) :
  length (fields_of parameterField parameters)
  = length (filter has_parameter parameters).
Proof.
  induction parameters as [|item parameters IH]; [reflexivity|].
  cbn [fields_of flat_map filter]. fold (fields_of parameterField parameters).
  unfold has_parameter at 1. unfold parameterField at 1.
  destruct (ParametersItem_GetParameter item); cbn; rewrite IH; reflexivity.
Qed.

(** A field made for an item of the list is a field of the registered type. *)
Lemma parameter_field_registered
    (name : string) (parameters : list ParametersItem) (model : Model)
    (item : ParametersItem) (f : Field) :
  In item parameters ->
  parameterField item = Some f ->
  exists t,
    buildTypeFromParameters name parameters model
    = Returned ((name ++ "Parameters", None), addType model t) /\
    Type_Name t = name ++ "Parameters" /\
    Type_Kind t = Kind_STRUCT /\
    In f (Type_Fields t).
Proof.
  intros Hin Hf. rewrite buildTypeFromParameters_cases.
  assert (Hmem : In f (fields_of parameterField parameters)).
  { unfold fields_of. apply in_flat_map. exists item. split; [exact Hin|].
    rewrite Hf. left. reflexivity. }
  destruct (fields_of parameterField parameters) as [|f0 fields];
    [destruct Hmem|].
  eexists. split; [reflexivity|]. cbn. auto.
Qed.

(** X4: a body parameter of the list gives, in the registered parameters
    type, a field with the parameter's name and the body position, that is
    serialized and has no format; its type is the inferred type of the
    parameter's schema, and the rendering of the whole item when the
    parameter has no schema. *)
Theorem body_parameter_field
    (name : string) (parameters : list ParametersItem) (model : Model)
    (parameter : string) (s : option Schema) :
  In (body_item parameter s) parameters ->
  exists t,
    buildTypeFromParameters name parameters model
    = Returned ((name ++ "Parameters", None), addType model t) /\
    Type_Kind t = Kind_STRUCT /\
    In (mkField parameter
                match s with
                | Some schema => typeForSchema schema
                | None => Sprintf_plus_v (body_item parameter s)
                end
                "" "" Position_BODY true)
       (Type_Fields t).
Proof.
  intros Hin.
  destruct (parameter_field_registered name parameters model
              (body_item parameter s)
              (mkField parameter
                       match s with
                       | Some schema => typeForSchema schema
                       | None => Sprintf_plus_v (body_item parameter s)
                       end
                       "" "" Position_BODY true) Hin)
    as [t [Hrun [_ [Hkind Hf]]]].
  - destruct s; reflexivity.
  - exists t. auto.
Qed.

(** X5: a header, form-data, query or path parameter of the list gives, in
    the registered parameters type, a serialized field with the parameter's
    own name and declared type (the type inference is not used) and the
    matching position; only the path parameter's format is kept. *)
Theorem non_body_parameter_fields
    (name : string) (parameters : list ParametersItem) (model : Model)
    (n : isNonBodyParameter_Oneof) :
  In (non_body_item n) parameters ->
  exists t,
    buildTypeFromParameters name parameters model
    = Returned ((name ++ "Parameters", None), addType model t) /\
    Type_Kind t = Kind_STRUCT /\
    In match n with
       | NonBodyParameter_HeaderParameterSubSchema h =>
         mkField (HeaderParameterSubSchema_Name h)
                 (HeaderParameterSubSchema_Type h) "" "" Position_HEADER true
       | NonBodyParameter_FormDataParameterSubSchema f =>
         mkField (FormDataParameterSubSchema_Name f)
                 (FormDataParameterSubSchema_Type f) "" "" Position_FORMDATA true
       | NonBodyParameter_QueryParameterSubSchema q =>
         mkField (QueryParameterSubSchema_Name q)
                 (QueryParameterSubSchema_Type q) "" "" Position_QUERY true
       | NonBodyParameter_PathParameterSubSchema p =>
         mkField (PathParameterSubSchema_Name p)
                 (PathParameterSubSchema_Type p) ""
                 (PathParameterSubSchema_Format p) Position_PATH true
       end
       (Type_Fields t).
Proof.
  intros Hin.
  match goal with
  | |- exists t, _ /\ _ /\ In ?f _ =>
    destruct (parameter_field_registered name parameters model
                (non_body_item n) f Hin) as [t [Hrun [_ [Hkind Hf]]]]
  end.
  - destruct n; reflexivity.
  - exists t. auto.
Qed.

(** X6: the parameter translator never panics and never reports an error.
    It skips the items that hold no parameter: when there is none that
    holds one it leaves the model as it is, and otherwise it appends one
    struct with exactly one field per item that holds a parameter, each of
    them serialized. *)
Theorem parameters_type_shape
    (name : string) (parameters : list ParametersItem) (model : Model) :
  (filter has_parameter parameters = [] /\
   buildTypeFromParameters name parameters model = Returned (("", None), model)) \/
  (exists t,
     buildTypeFromParameters name parameters model
     = Returned ((name ++ "Parameters", None), addType model t) /\
     Type_Name t = name ++ "Parameters" /\
     Type_Kind t = Kind_STRUCT /\
     Type_MapType t = "" /\
     length (Type_Fields t) = length (filter has_parameter parameters) /\
     Type_Fields t <> [] /\
     (forall f, In f (Type_Fields t) -> Field_Serialize f = true)).
Proof.
  rewrite buildTypeFromParameters_cases.
  pose proof (length_fields_of_parameterField parameters) as Hlen.
  assert (Hser : forall f, In f (fields_of parameterField parameters) ->
                           Field_Serialize f = true).
  { intros f Hf. unfold fields_of in Hf. apply in_flat_map in Hf.
    destruct Hf as [item [_ Hf]].
    destruct (parameterField item) as [g|] eqn:Hg; [|destruct Hf].
    destruct Hf as [<-|[]]. exact (parameterField_serialized item g Hg). }
  destruct (fields_of parameterField parameters) as [|f fields].
  - left. split; [|reflexivity].
    destruct (filter has_parameter parameters); [reflexivity|discriminate].
  - right. eexists. split; [reflexivity|]. cbn [Type_Name Type_Kind Type_MapType Type_Fields].
    repeat split; try assumption. discriminate.
Qed.

End ParameterFields.

Lemma body_parameter_field_witness :
  exists t,
    @buildTypeFromParameters sample_externals "addPet"
      [reference_item; body_item "pet" (Some (ref_schema "#/definitions/Pet"))]
      zeroModel
    = Returned (("addPetParameters", None), addType zeroModel t) /\
    In (mkField "pet" "Pet" "" "" 1%Z true) (Type_Fields t).
Proof.
  destruct (@body_parameter_field sample_externals "addPet"
              [reference_item; body_item "pet" (Some (ref_schema "#/definitions/Pet"))]
              zeroModel "pet" (Some (ref_schema "#/definitions/Pet")))
    as [t [Hrun [_ Hf]]].
  - right. left. reflexivity.
  - exists t. split; [exact Hrun|exact Hf].
Defined.

Lemma non_body_parameter_fields_witness :
  exists t,
    @buildTypeFromParameters sample_externals "getPet"
      [non_body_item (NonBodyParameter_PathParameterSubSchema
         {| PathParameterSubSchema_Name := "id";
            PathParameterSubSchema_Type := "integer";
            PathParameterSubSchema_Format := "int64" |})]
      zeroModel
    = Returned (("getPetParameters", None), addType zeroModel t) /\
    In (mkField "id" "integer" "" "int64" 5%Z true) (Type_Fields t).
Proof.
  destruct (@non_body_parameter_fields sample_externals "getPet"
              [non_body_item (NonBodyParameter_PathParameterSubSchema
                 {| PathParameterSubSchema_Name := "id";
                    PathParameterSubSchema_Type := "integer";
                    PathParameterSubSchema_Format := "int64" |})]
              zeroModel
              (NonBodyParameter_PathParameterSubSchema
                 {| PathParameterSubSchema_Name := "id";
                    PathParameterSubSchema_Type := "integer";
                    PathParameterSubSchema_Format := "int64" |}))
    as [t [Hrun [_ Hf]]].
  - left. reflexivity.
  - exists t. split; [exact Hrun|exact Hf].
Defined.

(** ** One operation *)
Section OneOperation.
Context {E : Externals}.

Lemma append_suffix_not_empty (s suffix : string) :
  suffix <> "" -> (s ++ suffix =? "") = false.
Proof.
  intros Hsuffix. apply String.eqb_neq. destruct s; cbn; [exact Hsuffix|discriminate].
Qed.

(** What [buildMethodFromOperation] does on an operation that has a
    responses section: the method it appends, and the types before it. *)
Lemma buildMethodFromOperation_cases
    (op : Operation) (method path : string) (responses : Responses)
    (model : Model) :
  Operation_Responses op = Some responses ->
  let name :=
    if sanitizeOperationName (OperationId op) =? ""
    then generateOperationName method path
    else sanitizeOperationName (OperationId op) in
  let parameterFields := fields_of parameterField (Operation_Parameters op) in
  let responseFields := fields_of responseField (ResponseCode responses) in
  let parametersType :=
    mkType (name ++ "Parameters")
           ((name ++ "Parameters") ++ " holds parameters to " ++ name)
           Kind_STRUCT parameterFields "" in
  let responsesType :=
    mkType (name ++ "Responses")
           ((name ++ "Responses") ++ " holds responses of " ++ name)
           Kind_STRUCT responseFields "" in
  buildMethodFromOperation op method path model
  = Returned
      (None,
       mkModel (Model_Name model)
         (Model_Types model
          ++ match parameterFields with [] => [] | _ => [parametersType] end
          ++ match responseFields with [] => [] | _ => [responsesType] end)%list
         (Model_Methods model
          ++ [mkMethod (OperationId op) path method (Operation_Description op)
                name
                match parameterFields with [] => "" | _ => name ++ "Parameters" end
                match responseFields with [] => "" | _ => name ++ "Responses" end])%list).
Proof.
  intros Hresponses. cbv zeta.
  unfold buildMethodFromOperation, bind. rewrite Hresponses.
  cbn [set_Method_Name Method_Name Method_Operation Method_Path Method_Method
       Method_Description Method_ParametersTypeName Method_ResponsesTypeName].
  destruct (sanitizeOperationName (OperationId op) =? "");
    cbn [set_Method_Name set_Method_ParametersTypeName Method_Name
         Method_Operation Method_Path Method_Method Method_Description
         Method_ParametersTypeName Method_ResponsesTypeName];
    rewrite buildTypeFromParameters_cases;
    destruct (fields_of parameterField (Operation_Parameters op));
    cbn [fst snd set_Method_Name set_Method_ParametersTypeName Method_Name
         Method_Operation Method_Path Method_Method Method_Description
         Method_ParametersTypeName Method_ResponsesTypeName];
    rewrite buildTypeFromResponses_cases;
    destruct (fields_of responseField (ResponseCode responses));
    destruct model;
    unfold modify, ret, addMethod, addType, set_Method_ResponsesTypeName;
    cbn [fst snd Model_Name Model_Types Model_Methods Method_Name
         Method_Operation Method_Path Method_Method Method_Description
         Method_ParametersTypeName Method_ResponsesTypeName app];
    rewrite ?app_nil_r, <- ?app_assoc; reflexivity.
Qed.

Lemma buildMethodFromOperation_without_responses
    (op : Operation) (method path : string) (model : Model) :
  Operation_Responses op = None ->
  buildMethodFromOperation op method path model = Panicked.
Proof.
  intros Hresponses. unfold buildMethodFromOperation, bind. rewrite Hresponses.
  match goal with
  | |- context [buildTypeFromParameters ?n ?ps model] =>
    destruct (buildTypeFromParameters_returns n ps model)
      as [ptn [model1 [Hp _]]]
  end.
  rewrite Hp. reflexivity.
Qed.

Lemma some_parameter_field (parameters : list ParametersItem) :
  match fields_of parameterField parameters with
  | [] => false
  | _ => true
  end = existsb has_parameter parameters.
Proof.
  induction parameters as [|item items IH]; [reflexivity|].
  cbn [fields_of flat_map existsb]. fold (fields_of parameterField items).
  unfold has_parameter at 1. unfold parameterField at 1.
  destruct (ParametersItem_GetParameter item); [reflexivity|exact IH].
Qed.

Lemma some_response_field (entries : list NamedResponseValue) :
  match fields_of responseField entries with
  | [] => false
  | _ => true
  end = existsb (fun entry => match response_schema entry with
                              | Some _ => true
                              | None => false
                              end) entries.
Proof.
  induction entries as [|entry entries IH]; [reflexivity|].
  cbn [fields_of flat_map existsb]. fold (fields_of responseField entries).
  rewrite responseField_schema.
  destruct (response_schema entry); [reflexivity|exact IH].
Qed.

(** X7: [buildMethodFromOperation] panics exactly on the operations that
    have no responses section (the parameters are translated first and never
    make it panic), and otherwise returns a nil error. *)
Theorem buildMethodFromOperation_panics_iff
    (op : Operation) (method path : string) (model : Model) :
  (buildMethodFromOperation op method path model = Panicked <->
   Operation_Responses op = None) /\
  (Operation_Responses op <> None <->
   exists model', buildMethodFromOperation op method path model
                  = Returned (None, model')).
Proof.
  destruct (Operation_Responses op) as [responses|] eqn:Hresponses.
  - pose proof (buildMethodFromOperation_cases op method path responses model
                  Hresponses) as Hrun. cbv zeta in Hrun.
    rewrite Hrun. split; split; try discriminate.
    + intros _. eexists. reflexivity.
  - rewrite (buildMethodFromOperation_without_responses op method path model
               Hresponses).
    split; split; try reflexivity; try congruence.
    intros [model' H]. discriminate.
Qed.

(** X8: the method made for an operation with a responses section copies the
    operation's identifier and description and takes the verb and path it is
    given; its parameters type name is its name followed by [Parameters] when
    an item of the operation holds a parameter, and empty otherwise; its
    responses type name is its name followed by [Responses] when a status
    code's response carries a schema, and empty otherwise. *)
Theorem method_of_operation
    (op : Operation) (method path : string) (responses : Responses)
    (model : Model) :
  Operation_Responses op = Some responses ->
  exists m model',
    buildMethodFromOperation op method path model = Returned (None, model') /\
    Model_Methods model' = (Model_Methods model ++ [m])%list /\
    Method_Operation m = OperationId op /\
    Method_Description m = Operation_Description op /\
    Method_Method m = method /\
    Method_Path m = path /\
    Method_ParametersTypeName m =
      (if existsb has_parameter (Operation_Parameters op)
       then Method_Name m ++ "Parameters" else "") /\
    Method_ResponsesTypeName m =
      (if existsb (fun entry => match response_schema entry with
                                | Some _ => true
                                | None => false
                                end) (ResponseCode responses)
       then Method_Name m ++ "Responses" else "").
Proof.
  intros Hresponses.
  pose proof (buildMethodFromOperation_cases op method path responses model
                Hresponses) as Hrun. cbv zeta in Hrun.
  eexists. eexists. split; [exact Hrun|].
  cbn [Model_Methods Method_Operation Method_Description Method_Method
       Method_Path Method_Name Method_ParametersTypeName
       Method_ResponsesTypeName].
  repeat (split; [reflexivity|]). split.
  - rewrite <- some_parameter_field.
    destruct (fields_of parameterField (Operation_Parameters op)); reflexivity.
  - rewrite <- some_response_field.
    destruct (fields_of responseField (ResponseCode responses)); reflexivity.
Qed.

(** The types an operation appends are those its method refers to. *)
Lemma buildMethodFromOperation_appends
    (op : Operation) (method path : string) (responses : Responses)
    (model : Model) :
  Operation_Responses op = Some responses ->
  exists m types model',
    buildMethodFromOperation op method path model = Returned (None, model') /\
    appended types [m] model model' /\
    map Type_Name types = referenced_types m /\
    Forall synthesized types /\
    method_key m = (method, path).
Proof.
  intros Hresponses.
  pose proof (buildMethodFromOperation_cases op method path responses model
                Hresponses) as Hrun. cbv zeta in Hrun.
  eexists. eexists. eexists. split; [exact Hrun|].
  split; [repeat split|].
  unfold referenced_types, nonempty_name.
  cbn [Method_ParametersTypeName Method_ResponsesTypeName].
  destruct (fields_of parameterField (Operation_Parameters op)) as [|pf pfs];
    destruct (fields_of responseField (ResponseCode responses)) as [|rf rfs];
    cbn [String.eqb app map Type_Name];
    rewrite ?append_suffix_not_empty by discriminate;
    (split; [reflexivity|]); (split; [|reflexivity]);
    repeat constructor; cbn; discriminate.
Qed.

(** X9: an operation with a responses section appends one method and, before
    it, the types the method refers to and no other: the parameters type
    first and the responses type next, each only when it has a field, each a
    struct; the types and methods that were there are kept. *)
Theorem operation_appends_referenced_types
    (op : Operation) (method path : string) (responses : Responses)
    (model : Model) :
  Operation_Responses op = Some responses ->
  exists m types model',
    buildMethodFromOperation op method path model = Returned (None, model') /\
    Model_Name model' = Model_Name model /\
    Model_Methods model' = (Model_Methods model ++ [m])%list /\
    Model_Types model' = (Model_Types model ++ types)%list /\
    map Type_Name types
    = (nonempty_name (Method_ParametersTypeName m)
       ++ nonempty_name (Method_ResponsesTypeName m))%list /\
    (forall t, In t types -> Type_Kind t = Kind_STRUCT /\ Type_Fields t <> []).
Proof.
  intros Hresponses.
  destruct (buildMethodFromOperation_appends op method path responses model
              Hresponses)
    as [m [types [model' [Hrun [[Hname [Htypes Hmethods]] [Hnames [Hsyn _]]]]]]].
  exists m, types, model'. repeat (split; [assumption|]).
  intros t Ht. rewrite Forall_forall in Hsyn. exact (Hsyn t Ht).
Qed.

End OneOperation.

Lemma buildMethodFromOperation_panics_iff_witness :
  @buildMethodFromOperation sample_externals
    {| OperationId := "listPets";
       Operation_Description := "";
       Operation_Parameters := [query_item "limit" "integer"];
       Operation_Responses := None |}
    "GET" "/pets" zeroModel
  = Panicked.
Proof.
  apply (proj1 (@buildMethodFromOperation_panics_iff sample_externals _ _ _ _)).
  reflexivity.
Defined.

Lemma method_of_operation_witness :
  exists m model',
    @buildMethodFromOperation sample_externals
      {| OperationId := "";
         Operation_Description := "all pets";
         Operation_Parameters := [reference_item; query_item "limit" "integer"];
         Operation_Responses := Some {| ResponseCode := [empty_response "204"] |} |}
      "GET" "/pets" zeroModel
    = Returned (None, model') /\
    Model_Methods model' = [m] /\
    Method_Description m = "all pets" /\
    Method_ParametersTypeName m = Method_Name m ++ "Parameters" /\
    Method_ResponsesTypeName m = "".
Proof.
  destruct (@method_of_operation sample_externals
              {| OperationId := "";
                 Operation_Description := "all pets";
                 Operation_Parameters := [reference_item; query_item "limit" "integer"];
                 Operation_Responses :=
                   Some {| ResponseCode := [empty_response "204"] |} |}
              "GET" "/pets" {| ResponseCode := [empty_response "204"] |}
              zeroModel eq_refl)
    as [m [model' [Hrun [Hms [_ [Hd [_ [_ [Hp Hr]]]]]]]]].
  exists m, model'. split; [exact Hrun|]. split; [exact Hms|].
  split; [exact Hd|]. split; [exact Hp|exact Hr].
Defined.

Lemma operation_appends_referenced_types_witness :
  exists m types model',
    @buildMethodFromOperation sample_externals
      {| OperationId := "getPet";
         Operation_Description := "";
         Operation_Parameters := [query_item "limit" "integer"];
         Operation_Responses :=
           Some {| ResponseCode :=
                     [schema_response "200" (ref_schema "#/definitions/Pet")] |} |}
      "GET" "/pets" zeroModel
    = Returned (None, model') /\
    Model_Methods model' = [m] /\
    Model_Types model' = types /\
    map Type_Name types
    = (nonempty_name (Method_ParametersTypeName m)
       ++ nonempty_name (Method_ResponsesTypeName m))%list.
Proof.
  destruct (@operation_appends_referenced_types sample_externals
              {| OperationId := "getPet";
                 Operation_Description := "";
                 Operation_Parameters := [query_item "limit" "integer"];
                 Operation_Responses :=
                   Some {| ResponseCode :=
                             [schema_response "200"
                                (ref_schema "#/definitions/Pet")] |} |}
              "GET" "/pets"
              {| ResponseCode :=
                   [schema_response "200" (ref_schema "#/definitions/Pet")] |}
              zeroModel eq_refl)
    as [m [types [model' [Hrun [_ [Hms [Hts [Hnames _]]]]]]]].
  exists m, types, model'. split; [exact Hrun|]. split; [exact Hms|].
  split; [exact Hts|exact Hnames].
Defined.

(** ** The whole model *)
Section WholeModel.
Context {E : Externals}.

Lemma appended_refl (model : Model) : appended [] [] model model.
Proof. unfold appended. rewrite !app_nil_r. auto. Qed.

Lemma appended_trans (types1 types2 : list Type_) (methods1 methods2 : list Method)
    (model1 model2 model3 : Model) :
  appended types1 methods1 model1 model2 ->
  appended types2 methods2 model2 model3 ->
  appended (types1 ++ types2) (methods1 ++ methods2) model1 model3.
Proof.
  intros [Hn1 [Ht1 Hm1]] [Hn2 [Ht2 Hm2]]. unfold appended.
  rewrite Hn2, Hn1, Ht2, Ht1, Hm2, Hm1, !app_assoc. auto.
Qed.

Lemma consistent_nil : consistent [] [] [].
Proof. repeat split. constructor. Qed.

Lemma consistent_app (keys1 keys2 : list (string * string))
    (types1 types2 : list Type_) (methods1 methods2 : list Method) :
  consistent keys1 types1 methods1 -> consistent keys2 types2 methods2 ->
  consistent (keys1 ++ keys2) (types1 ++ types2) (methods1 ++ methods2).
Proof.
  intros [Hn1 [Hs1 Hk1]] [Hn2 [Hs2 Hk2]]. unfold consistent.
  rewrite !map_app, flat_map_app, Hn1, Hn2, Hk1, Hk2.
  split; [reflexivity|]. split; [|reflexivity].
  apply Forall_app. auto.
Qed.

Lemma visit_verb_appends (o : option Operation) (verb path : string) (model : Model) :
  (forall op, o = Some op ->
              exists responses, Operation_Responses op = Some responses) ->
  exists types methods model',
    if_not_nil o
      (fun op => bind (buildMethodFromOperation op verb path) (fun _ => ret tt))
      model
    = Returned (tt, model') /\
    appended types methods model model' /\
    consistent (present verb path o) types methods.
Proof.
  intros Hresponses. destruct o as [op|]; cbn [if_not_nil present].
  - destruct (Hresponses op eq_refl) as [responses Hr].
    destruct (buildMethodFromOperation_appends op verb path responses model Hr)
      as [m [types [model' [Hrun [Happ [Hnames [Hsyn Hkey]]]]]]].
    exists types, [m], model'. unfold bind. rewrite Hrun.
    split; [reflexivity|]. split; [exact Happ|].
    unfold consistent. cbn [flat_map map]. rewrite app_nil_r, Hkey. auto.
  - exists [], [], model. split; [reflexivity|].
    split; [apply appended_refl|apply consistent_nil].
Qed.

Lemma build_path_appends (entry : NamedPathItem) (model : Model) :
  (forall op, In op (modeled_operations (NamedPathItem_Value entry)) ->
              exists responses, Operation_Responses op = Some responses) ->
  exists types methods model',
    build_path entry model = Returned (tt, model') /\
    appended types methods model model' /\
    consistent (modeled_verbs entry) types methods.
Proof.
  intros Hresponses. unfold build_path, modeled_verbs.
  set (v := NamedPathItem_Value entry) in *.
  set (path := NamedPathItem_Name entry).
  assert (Hall : forall o, In o [Get v; Post v; Put v; Delete v] ->
                 forall op, o = Some op ->
                 exists responses, Operation_Responses op = Some responses).
  { intros o Ho op ->. apply Hresponses. unfold modeled_operations.
    apply in_flat_map. exists (Some op). split; [exact Ho|left; reflexivity]. }
  destruct (visit_verb_appends (Get v) "GET" path model)
    as [t1 [m1 [model1 [H1 [A1 C1]]]]]; [apply Hall; cbn; auto|].
  destruct (visit_verb_appends (Post v) "POST" path model1)
    as [t2 [m2 [model2 [H2 [A2 C2]]]]]; [apply Hall; cbn; auto|].
  destruct (visit_verb_appends (Put v) "PUT" path model2)
    as [t3 [m3 [model3 [H3 [A3 C3]]]]]; [apply Hall; cbn; auto|].
  destruct (visit_verb_appends (Delete v) "DELETE" path model3)
    as [t4 [m4 [model4 [H4 [A4 C4]]]]]; [apply Hall; cbn; auto|].
  exists (t1 ++ t2 ++ t3 ++ t4)%list, (m1 ++ m2 ++ m3 ++ m4)%list, model4.
  split; [|split].
  - unfold bind at 1. rewrite H1. unfold bind at 1. rewrite H2.
    unfold bind at 1. rewrite H3. exact H4.
  - exact (appended_trans _ _ _ _ _ _ _ A1
             (appended_trans _ _ _ _ _ _ _ A2
                (appended_trans _ _ _ _ _ _ _ A3 A4))).
  - exact (consistent_app _ _ _ _ _ _ C1
             (consistent_app _ _ _ _ _ _ C2 (consistent_app _ _ _ _ _ _ C3 C4))).
Qed.

Lemma for_each_build_path_appends (entries : list NamedPathItem) (model : Model) :
  (forall entry op,
     In entry entries ->
     In op (modeled_operations (NamedPathItem_Value entry)) ->
     exists responses, Operation_Responses op = Some responses) ->
  exists types methods model',
    for_each entries build_path model = Returned (tt, model') /\
    appended types methods model model' /\
    consistent (flat_map modeled_verbs entries) types methods.
Proof.
  revert model. induction entries as [|entry entries IH]; intros model Hresponses.
  - exists [], [], model. split; [reflexivity|].
    split; [apply appended_refl|apply consistent_nil].
  - destruct (build_path_appends entry model)
      as [t1 [m1 [model1 [H1 [A1 C1]]]]].
    { intros op. apply Hresponses. left. reflexivity. }
    destruct (IH model1) as [t2 [m2 [model2 [H2 [A2 C2]]]]].
    { intros e op He. apply Hresponses. right. exact He. }
    exists (t1 ++ t2)%list, (m1 ++ m2)%list, model2. split; [|split].
    + cbn [for_each]. unfold bind. rewrite H1. exact H2.
    + exact (appended_trans _ _ _ _ _ _ _ A1 A2).
    + cbn [flat_map]. exact (consistent_app _ _ _ _ _ _ C1 C2).
Qed.

(** The loop over the definitions appends the translated definitions, in
    their order. *)
Lemma build_definitions_appends (pairs : list NamedSchema) (model : Model) :
  (forall entry, In entry pairs -> schema_in_clause (NamedSchema_Value entry)) ->
  exists types model',
    build_definitions pairs model = Returned (None, model') /\
    appended types [] model model' /\
    Forall2 (fun entry t =>
               buildTypeFromDefinition (NamedSchema_Name entry)
                                       (NamedSchema_Value entry)
               = Returned (t, None))
            pairs types.
Proof.
  revert model. induction pairs as [|entry pairs IH]; intros model Hsafe.
  - exists [], model. split; [reflexivity|].
    split; [apply appended_refl|constructor].
  - cbn [build_definitions]. unfold bind, lift.
    destruct (proj1 (proj1 (buildTypeFromDefinition_returns_iff
                (NamedSchema_Name entry) (NamedSchema_Value entry)))
                (Hsafe entry (or_introl eq_refl))) as [t Ht].
    rewrite Ht. cbn [fst snd]. unfold modify.
    destruct (IH (addType model t)) as [types [model' [Hrun [Happ Hall]]]].
    { intros e He. apply Hsafe. right. exact He. }
    exists (t :: types), model'. split; [exact Hrun|]. split.
    + apply (appended_trans [t] types [] [] model (addType model t) model');
        [|exact Happ].
      unfold appended. cbn. rewrite app_nil_r. auto.
    + constructor; assumption.
Qed.

Lemma buildTypeFromDefinition_name (name : string) (schema : Schema) (t : Type_)
    (e : error) :
  buildTypeFromDefinition name schema = Returned (t, e) -> Type_Name t = name.
Proof.
  rewrite buildTypeFromDefinition_cases. cbv zeta.
  destruct (declared_properties schema);
    [destruct (AdditionalProperties schema) as [clause|];
     [destruct (AdditionalPropertiesItem_GetSchema (Some clause))|]|];
    intros H; inversion H; reflexivity.
Qed.

(** The model of a translatable document, laid out. *)
Lemma NewModelFromOpenAPI2_layout (document : Document) :
  translatable document ->
  exists model definitionTypes operationTypes,
    NewModelFromOpenAPI2 document = Returned (Some model, None) /\
    Model_Types model = (definitionTypes ++ operationTypes)%list /\
    Forall2 (fun entry t =>
               buildTypeFromDefinition (NamedSchema_Name entry)
                                       (NamedSchema_Value entry)
               = Returned (t, None))
            (definitions_of document) definitionTypes /\
    map Type_Name operationTypes
    = flat_map referenced_types (Model_Methods model) /\
    Forall synthesized operationTypes.
Proof.
  intros [[info Hinfo] [[paths [Hpaths Hresponses]] Hsafe]].
  unfold NewModelFromOpenAPI2, buildModel. rewrite Hinfo.
  unfold bind at 1 2 3. unfold modify.
  change (set_Model_Methods []
            (set_Model_Types [] (set_Model_Name (Title info) zeroModel)))
    with (mkModel (Title info) [] []).
  set (start := mkModel (Title info) [] []).
  assert (Hdefs :
    exists types model1,
      match Document_Definitions document with
      | Some definitions =>
        build_definitions (Definitions_AdditionalProperties definitions)
      | None => ret None
      end start = Returned (None, model1) /\
      appended types [] start model1 /\
      Forall2 (fun entry t =>
                 buildTypeFromDefinition (NamedSchema_Name entry)
                                         (NamedSchema_Value entry)
                 = Returned (t, None))
              (definitions_of document) types).
  { unfold definitions_of.
    destruct (Document_Definitions document) as [definitions|].
    - apply build_definitions_appends. intros entry. apply Hsafe. reflexivity.
    - exists [], start. split; [reflexivity|].
      split; [apply appended_refl|constructor]. }
  destruct Hdefs as [dts [model1 [H1 [[_ [Ht1 Hm1]] Hall]]]].
  destruct (for_each_build_path_appends (Path paths) model1 Hresponses)
    as [ots [ms [model2 [H2 [[_ [Ht2 Hm2]] [Hnames [Hsyn _]]]]]]].
  exists model2, dts, ots.
  unfold build, bind. rewrite H1, Hpaths, H2. cbn.
  split; [reflexivity|]. split; [|split; [exact Hall|split; [|exact Hsyn]]].
  - rewrite Ht2, Ht1. reflexivity.
  - rewrite Hm2, Hm1. exact Hnames.
Qed.

(** X10: in the model of a translatable document the types come in this
    order: first one type per definition, in the order of the definitions,
    each as the definition translator makes it and named after its
    definition; then the types of the operations, which are exactly the
    parameters and responses types the methods refer to, in the order of the
    methods. *)
Theorem model_types_layout (document : Document) :
  translatable document ->
  exists model definitionTypes operationTypes,
    NewModelFromOpenAPI2 document = Returned (Some model, None) /\
    Model_Types model = (definitionTypes ++ operationTypes)%list /\
    Forall2 (fun entry t =>
               buildTypeFromDefinition (NamedSchema_Name entry)
                                       (NamedSchema_Value entry)
               = Returned (t, None))
            (definitions_of document) definitionTypes /\
    map Type_Name definitionTypes
    = map NamedSchema_Name (definitions_of document) /\
    map Type_Name operationTypes
    = flat_map referenced_types (Model_Methods model).
Proof.
  intros Hdoc.
  destruct (NewModelFromOpenAPI2_layout document Hdoc)
    as [model [dts [ots [Hrun [Htypes [Hall [Hnames _]]]]]]].
  exists model, dts, ots. repeat (split; [assumption|]). split; [|exact Hnames].
  clear Htypes Hrun. induction Hall as [|entry t entries ts Ht _ IH];
    [reflexivity|].
  cbn [map]. rewrite IH, (buildTypeFromDefinition_name _ _ _ _ Ht). reflexivity.
Qed.

(** X11: in the model of a translatable document every type name a method
    refers to that is not empty is the name of a type of the model, and that
    type is a struct with at least one field. *)
Theorem method_type_names_resolve (document : Document) :
  translatable document ->
  exists model,
    NewModelFromOpenAPI2 document = Returned (Some model, None) /\
    forall m typeName,
      In m (Model_Methods model) ->
      typeName <> "" ->
      typeName = Method_ParametersTypeName m \/
      typeName = Method_ResponsesTypeName m ->
      exists t,
        In t (Model_Types model) /\
        Type_Name t = typeName /\
        Type_Kind t = Kind_STRUCT /\
        Type_Fields t <> [].
Proof.
  intros Hdoc.
  destruct (NewModelFromOpenAPI2_layout document Hdoc)
    as [model [dts [ots [Hrun [Htypes [_ [Hnames Hsyn]]]]]]].
  exists model. split; [exact Hrun|].
  intros m typeName Hm Hne Hname.
  assert (Href : In typeName (referenced_types m)).
  { unfold referenced_types, nonempty_name. apply in_or_app.
    apply String.eqb_neq in Hne.
    destruct Hname as [<-|<-]; [left|right]; rewrite Hne; left; reflexivity. }
  assert (Hin : In typeName (map Type_Name ots)).
  { rewrite Hnames. apply in_flat_map. exists m. auto. }
  apply in_map_iff in Hin. destruct Hin as [t [Ht Hint]].
  exists t. split; [rewrite Htypes; apply in_or_app; right; exact Hint|].
  split; [exact Ht|].
  rewrite Forall_forall in Hsyn. exact (Hsyn t Hint).
Qed.

End WholeModel.

Lemma model_types_layout_witness :
  exists model,
    @NewModelFromOpenAPI2 sample_externals pets_document
    = Returned (Some model, None) /\
    map Type_Name (Model_Types model)
    = ("Pet" :: flat_map referenced_types (Model_Methods model))%list.
Proof.
  destruct (@model_types_layout sample_externals pets_document
              pets_document_translatable)
    as [model [dts [ots [Hrun [Htypes [_ [Hdefs Hops]]]]]]].
  exists model. split; [exact Hrun|].
  rewrite Htypes, map_app, Hdefs, Hops. reflexivity.
Defined.

Lemma method_type_names_resolve_witness :
  exists model,
    @NewModelFromOpenAPI2 sample_externals pets_document
    = Returned (Some model, None) /\
    forall m, In m (Model_Methods model) ->
              Method_ResponsesTypeName m <> "" ->
              exists t, In t (Model_Types model) /\
                        Type_Name t = Method_ResponsesTypeName m.
Proof.
  destruct (@method_type_names_resolve sample_externals pets_document
              pets_document_translatable) as [model [Hrun Hresolve]].
  exists model. split; [exact Hrun|].
  intros m Hm Hne.
  destruct (Hresolve m (Method_ResponsesTypeName m) Hm Hne (or_intror eq_refl))
    as [t [Ht [Hname _]]].
  exists t. split; [exact Ht|exact Hname].
Defined.

(** ** When the translation returns, and what it does not read *)
Section TranslationDomain.
Context {E : Externals}.

Lemma bind_Returned {A B} (c : Builder A) (k : A -> Builder B) (model : Model)
    (r : B * Model) :
  bind c k model = Returned r ->
  exists a model1, c model = Returned (a, model1) /\ k a model1 = Returned r.
Proof.
  unfold bind. destruct (c model) as [[a model1]|]; [|discriminate].
  intros H. exists a, model1. auto.
Qed.

Lemma visit_verb_returned (o : option Operation) (verb path : string)
    (model : Model) (r : unit * Model) :
  if_not_nil o
    (fun op => bind (buildMethodFromOperation op verb path) (fun _ => ret tt))
    model
  = Returned r ->
  forall op, o = Some op ->
             exists responses, Operation_Responses op = Some responses.
Proof.
  intros Hrun op ->. cbn [if_not_nil] in Hrun.
  destruct (Operation_Responses op) as [responses|] eqn:Hresponses.
  - exists responses. reflexivity.
  - unfold bind in Hrun.
    rewrite (buildMethodFromOperation_without_responses op verb path model
               Hresponses) in Hrun.
    discriminate.
Qed.

Lemma build_path_returned (entry : NamedPathItem) (model : Model)
    (r : unit * Model) :
  build_path entry model = Returned r ->
  forall op, In op (modeled_operations (NamedPathItem_Value entry)) ->
             exists responses, Operation_Responses op = Some responses.
Proof.
  unfold build_path. intros Hrun op Hop.
  apply bind_Returned in Hrun. destruct Hrun as [u1 [model1 [H1 Hrun]]].
  apply bind_Returned in Hrun. destruct Hrun as [u2 [model2 [H2 Hrun]]].
  apply bind_Returned in Hrun. destruct Hrun as [u3 [model3 [H3 H4]]].
  apply In_modeled_operations in Hop.
  destruct Hop as [Hop|[Hop|[Hop|Hop]]].
  - exact (visit_verb_returned _ _ _ _ _ H1 op Hop).
  - exact (visit_verb_returned _ _ _ _ _ H2 op Hop).
  - exact (visit_verb_returned _ _ _ _ _ H3 op Hop).
  - exact (visit_verb_returned _ _ _ _ _ H4 op Hop).
Qed.

Lemma for_each_build_path_returned (entries : list NamedPathItem) (model : Model)
    (r : unit * Model) :
  for_each entries build_path model = Returned r ->
  forall entry op,
    In entry entries ->
    In op (modeled_operations (NamedPathItem_Value entry)) ->
    exists responses, Operation_Responses op = Some responses.
Proof.
  revert model. induction entries as [|e entries IH]; intros model Hrun entry op;
    [intros []|].
  cbn [for_each] in Hrun. apply bind_Returned in Hrun.
  destruct Hrun as [u [model1 [H1 H2]]].
  intros [<-|Hentry].
  - exact (build_path_returned _ _ _ H1 op).
  - exact (IH model1 H2 entry op Hentry).
Qed.

Lemma build_definitions_returned (pairs : list NamedSchema) (model : Model)
    (r : error * Model) :
  build_definitions pairs model = Returned r ->
  forall entry, In entry pairs -> schema_in_clause (NamedSchema_Value entry).
Proof.
  revert model. induction pairs as [|e pairs IH]; intros model Hrun entry;
    [intros []|].
  cbn [build_definitions] in Hrun. apply bind_Returned in Hrun.
  destruct Hrun as [[t err] [model1 [H1 H2]]].
  unfold lift in H1.
  destruct (buildTypeFromDefinition (NamedSchema_Name e) (NamedSchema_Value e))
    as [[t' err']|] eqn:Hdef; [|discriminate].
  intros [<-|Hentry].
  - apply (proj2 (buildTypeFromDefinition_returns_iff
                    (NamedSchema_Name e) (NamedSchema_Value e))).
    rewrite Hdef. discriminate.
  - inversion H1; subst t' err' model1. cbn [fst snd] in H2.
    destruct err as [msg|].
    + destruct (buildTypeFromDefinition_outcome (NamedSchema_Name e)
                  (NamedSchema_Value e)) as [Hp|[t0 Ht0]];
        rewrite Hdef in *; discriminate.
    + apply bind_Returned in H2. destruct H2 as [u [model2 [_ H3]]].
      exact (IH model2 H3 entry Hentry).
Qed.

Lemma NewModelFromOpenAPI2_returned (document : Document)
    (r : option Model * error) :
  NewModelFromOpenAPI2 document = Returned r -> translatable document.
Proof.
  unfold NewModelFromOpenAPI2, buildModel. intros Hrun.
  destruct (Document_Info document) as [info|] eqn:Hinfo; [|discriminate].
  destruct (bind _ _ zeroModel) as [[r0 model0]|] eqn:Hbuild; [|discriminate].
  apply bind_Returned in Hbuild. destruct Hbuild as [u1 [model1 [_ Hbuild]]].
  apply bind_Returned in Hbuild. destruct Hbuild as [u2 [model2 [_ Hbuild]]].
  apply bind_Returned in Hbuild. destruct Hbuild as [u3 [model3 [_ Hbuild]]].
  apply bind_Returned in Hbuild. destruct Hbuild as [err [model4 [Hbuild _]]].
  unfold build in Hbuild. apply bind_Returned in Hbuild.
  destruct Hbuild as [returned [model5 [Hdefs Hpaths]]].
  assert (Hnil : returned = None).
  { destruct (Document_Definitions document) as [definitions|].
    - destruct (build_definitions_outcome
                  (Definitions_AdditionalProperties definitions) model3)
        as [Hp|[m Hm]]; rewrite Hdefs in *; [discriminate|].
      inversion Hm. reflexivity.
    - inversion Hdefs. reflexivity. }
  subst returned.
  destruct (Document_Paths document) as [paths|] eqn:Hp; [|discriminate].
  apply bind_Returned in Hpaths. destruct Hpaths as [u [model6 [Hloop _]]].
  split; [exists info; exact Hinfo|]. split.
  - exists paths. split; [exact Hp|].
    exact (for_each_build_path_returned _ _ _ Hloop).
  - intros definitions entry Hd Hentry. rewrite Hd in Hdefs.
    exact (build_definitions_returned _ _ _ Hdefs entry Hentry).
Qed.

(** X12: the translation returns a model exactly on the documents that have
    an info section, a paths section, a responses section on each operation
    under GET, POST, PUT and DELETE, and a schema object in the
    additional-properties clause of each definition without declared
    property; on every other document it panics. *)
Theorem translation_returns_iff (document : Document) :
  (translatable document <->
   exists model, NewModelFromOpenAPI2 document = Returned (Some model, None)) /\
  (~ translatable document <-> NewModelFromOpenAPI2 document = Panicked).
Proof.
  assert (Hiff : translatable document <->
                 exists model,
                   NewModelFromOpenAPI2 document = Returned (Some model, None)).
  { split.
    - intros Hdoc.
      destruct (NewModelFromOpenAPI2_returns document Hdoc)
        as [info [paths [model [_ [_ [Hrun _]]]]]].
      exists model. exact Hrun.
    - intros [model Hrun]. exact (NewModelFromOpenAPI2_returned _ _ Hrun). }
  split; [exact Hiff|]. split.
  - intros Hnot.
    destruct (NewModelFromOpenAPI2 document) as [r|] eqn:Hrun; [|reflexivity].
    exfalso. apply Hnot. exact (NewModelFromOpenAPI2_returned _ _ Hrun).
  - intros Hpanic Hdoc. apply Hiff in Hdoc. destruct Hdoc as [model Hrun].
    rewrite Hrun in Hpanic. discriminate.
Qed.

Lemma for_each_map {A} (change : A -> A) (body : A -> Builder unit)
    (xs : list A) (model : Model) :
  (forall x, body (change x) = body x) ->
  for_each (map change xs) body model = for_each xs body model.
Proof.
  intros Hbody. revert model. induction xs as [|x xs IH]; intros model;
    [reflexivity|].
  cbn [map for_each]. rewrite Hbody. unfold bind.
  destruct (body x model) as [[u model1]|]; [apply IH|reflexivity].
Qed.

(** X13: the translation reads, of a path item, the operations under GET,
    POST, PUT and DELETE only: changing the path items in any way that keeps
    these four gives the same outcome, whatever is put under OPTIONS, HEAD
    and PATCH. *)
Theorem other_verbs_are_not_read (change : PathItem -> PathItem) (document : Document) :
  (forall v, Get (change v) = Get v /\ Post (change v) = Post v /\
             Put (change v) = Put v /\ Delete (change v) = Delete v) ->
  NewModelFromOpenAPI2 (map_path_items change document)
  = NewModelFromOpenAPI2 document.
Proof.
  intros Hkeep.
  assert (Hbuild : forall model,
            build (map_path_items change document) model = build document model).
  { intros model. unfold build, bind.
    change (Document_Definitions (map_path_items change document))
      with (Document_Definitions document).
    destruct (match Document_Definitions document with
              | Some definitions =>
                build_definitions (Definitions_AdditionalProperties definitions)
              | None => ret None
              end model) as [[[e|] model1]|]; try reflexivity.
    cbn [map_path_items Document_Paths].
    destruct (Document_Paths document) as [paths|]; [|reflexivity].
    cbn [Path].
    rewrite (for_each_map
               (fun entry =>
                  {| NamedPathItem_Name := NamedPathItem_Name entry;
                     NamedPathItem_Value := change (NamedPathItem_Value entry) |})
               build_path); [reflexivity|].
    intros entry. unfold build_path.
    cbn [NamedPathItem_Name NamedPathItem_Value].
    destruct (Hkeep (NamedPathItem_Value entry)) as [-> [-> [-> ->]]].
    reflexivity. }
  unfold NewModelFromOpenAPI2, buildModel.
  change (Document_Info (map_path_items change document))
    with (Document_Info document).
  destruct (Document_Info document) as [info|]; [|reflexivity].
  unfold bind. cbn [modify]. rewrite Hbuild. reflexivity.
Qed.

End TranslationDomain.

Lemma translation_returns_iff_witness :
  exists model,
    @NewModelFromOpenAPI2 sample_externals pets_document
    = Returned (Some model, None).
Proof.
  exact (proj1 (proj1 (@translation_returns_iff sample_externals pets_document))
           pets_document_translatable).
Defined.

Lemma other_verbs_are_not_read_witness :
  @NewModelFromOpenAPI2 sample_externals
    (map_path_items (with_other_verbs None None (Some empty_operation))
                    pets_document)
  = @NewModelFromOpenAPI2 sample_externals pets_document.
Proof.
  apply (@other_verbs_are_not_read sample_externals
           (with_other_verbs None None (Some empty_operation)) pets_document).
  intros v. repeat split.
Defined.

(** ** The fallback of the type inference *)
Section Fallback.
Context {E : Externals}.

(** A schema with no named reference that a single-type rule matches gets
    one of the fixed type names, or an array of a reference: never the
    empty string. *)
Lemma typeForSchema_type_rule_not_empty (schema : Schema) :
  XRef schema = "" ->
  single_type_rule schema = true ->
  typeForSchema schema <> "".
Proof.
  intros Href Hrule. unfold single_type_rule in Hrule.
  destruct (Schema_Type schema) as [[types]|] eqn:Hty; [|discriminate].
  destruct types as [|ty [|ty' types]]; try discriminate.
  unfold typeForSchema. rewrite Href, Hty.
  cbn [String.eqb negb TypeItem_Value]. rewrite !single_is_one.
  destruct (String.eqb_spec ty "string") as [->|_]; [discriminate|].
  destruct (String.eqb_spec ty "integer") as [->|_].
  { cbn [andb]. destruct (Format schema =? "int32"); discriminate. }
  cbn [andb].
  destruct (String.eqb_spec ty "number") as [->|_]; [discriminate|].
  cbn [orb] in Hrule.
  destruct (String.eqb_spec ty "array") as [->|_].
  - cbn [String.eqb Ascii.eqb Bool.eqb andb orb] in Hrule |- *.
    rewrite orb_false_r in Hrule.
    unfold single_referenced_item in Hrule.
    destruct (Items schema) as [[items]|]; [|discriminate].
    cbn [ItemsItem_Schema] in *.
    destruct items as [|item [|item' items]]; try discriminate.
    unfold has_ref in Hrule. rewrite Hrule. discriminate.
  - cbn [andb orb] in Hrule. apply andb_true_iff in Hrule.
    destruct Hrule as [Hobject Hclause]. rewrite Hobject.
    unfold no_additionalProperties in Hclause.
    destruct (AdditionalProperties schema); [discriminate|].
    cbn. discriminate.
Qed.

(** C3, amended: the type inference returns a string on every schema.  On a
    schema that no rule recognizes, that string is the rendering of the
    schema, as it is.  The string is empty in two cases only: the schema has
    a named reference that [typeForRef] turns into the empty string, or no
    rule recognizes the schema and its rendering is empty. *)
Theorem typeForSchema_fallback_is_rendering (schema : Schema) :
  (exists typeName, typeForSchema schema = typeName) /\
  (recognized schema = false -> typeForSchema schema = Sprintf_v schema) /\
  (typeForSchema schema = "" <->
   (XRef schema <> "" /\ typeForRef (XRef schema) = "") \/
   (recognized schema = false /\ Sprintf_v schema = "")).
Proof.
  split; [eexists; reflexivity|]. split; [apply typeForSchema_unrecognized|].
  destruct (String.eqb_spec (XRef schema) "") as [Href|Href].
  - assert (Hhas : has_ref schema = false).
    { unfold has_ref. rewrite Href. reflexivity. }
    destruct (single_type_rule schema) eqn:Hrule.
    + pose proof (typeForSchema_type_rule_not_empty schema Href Hrule) as Hne.
      split; [contradiction|].
      intros [[Hx _]|[Hrec _]]; [contradiction|].
      unfold recognized in Hrec. rewrite Hhas, Hrule in Hrec. discriminate.
    + rewrite (typeForSchema_without_type_rule schema Href Hrule).
      unfold recognized, additionalProperties_ref_rule.
      rewrite Hhas, Hrule. cbn [orb].
      destruct (AdditionalPropertiesItem_GetSchema (AdditionalProperties schema))
        as [value|].
      * destruct (has_ref value).
        -- split; [discriminate|].
           intros [[Hx _]|[Hrec _]]; [contradiction|discriminate].
        -- split; [intros H; right; auto|].
           intros [[Hx _]|[_ H]]; [contradiction|exact H].
      * split; [intros H; right; auto|].
        intros [[Hx _]|[_ H]]; [contradiction|exact H].
  - rewrite (typeForSchema_ref schema Href). split.
    + intros H. left. auto.
    + intros [[_ H]|[Hrec _]]; [exact H|].
      unfold recognized, has_ref in Hrec.
      apply String.eqb_neq in Href. rewrite Href in Hrec. discriminate.
Qed.

End Fallback.

Lemma typeForSchema_fallback_is_rendering_witness :
  @typeForSchema sample_externals (typed_schema ["string"; "number"]) = "&{}" /\
  @typeForSchema text_format_externals plain_schema = "".
Proof.
  split.
  - apply (proj1 (proj2 (@typeForSchema_fallback_is_rendering sample_externals
                           (typed_schema ["string"; "number"])))).
    reflexivity.
  - apply (proj2 (proj2 (@typeForSchema_fallback_is_rendering
                           text_format_externals plain_schema))).
    right. split; reflexivity.
Defined.

(** C3: the schema with no field set is matched by no rule, and under a
    renderer that prints set fields only its type is the empty string. *)
Lemma typeForSchema_fallback_may_be_empty :
  recognized plain_schema = false /\
  @typeForSchema text_format_externals plain_schema = "" /\
  ~ (forall (E : Externals) (schema : Schema),
       recognized schema = false -> @typeForSchema E schema <> "").
Proof.
  split; [reflexivity|]. split; [reflexivity|].
  intros H. exact (H text_format_externals plain_schema eq_refl eq_refl).
Qed.

Example text_format_of_declared_types :
  text_format (typed_schema ["string"; "number"])
  = "type:<value:" ++ quote ++ "string" ++ quote ++ " value:"
    ++ quote ++ "number" ++ quote ++ " > ".
Proof. reflexivity. Qed.

(** ** The whole model, assembled *)
Section Assembly.
Context {E : Externals}.

Lemma extend_nil (model : Model) : extend model [] = model.
Proof. destruct model. unfold extend. cbn. rewrite !app_nil_r. reflexivity. Qed.

Lemma extend_app (model : Model) (cs1 cs2 : list Model) :
  extend (extend model cs1) cs2 = extend model (cs1 ++ cs2).
Proof.
  unfold extend. cbn [Model_Name Model_Types Model_Methods].
  rewrite !flat_map_app, !app_assoc. reflexivity.
Qed.

(** An operation adds to any model what it gives alone. *)
Lemma buildMethodFromOperation_contribution
    (op : Operation) (verb path : string) (responses : Responses) (model : Model) :
  Operation_Responses op = Some responses ->
  buildMethodFromOperation op verb path model
  = Returned (None, extend model [operation_contribution (op, verb, path)]).
Proof.
  intros Hresponses.
  pose proof (buildMethodFromOperation_cases op verb path responses model
                Hresponses) as Hrun.
  pose proof (buildMethodFromOperation_cases op verb path responses zeroModel
                Hresponses) as Halone.
  cbv zeta in Hrun, Halone.
  unfold operation_contribution. cbn [fst snd]. rewrite Hrun, Halone.
  unfold extend.
  cbn [flat_map Model_Name Model_Types Model_Methods zeroModel app].
  rewrite !app_nil_r. reflexivity.
Qed.

Lemma visit_verb_contribution (o : option Operation) (verb path : string)
    (model : Model) :
  (forall op, o = Some op ->
              exists responses, Operation_Responses op = Some responses) ->
  if_not_nil o
    (fun op => bind (buildMethodFromOperation op verb path) (fun _ => ret tt))
    model
  = Returned (tt, extend model (map operation_contribution (call verb path o))).
Proof.
  intros Hresponses. destruct o as [op|]; cbn [if_not_nil call map].
  - destruct (Hresponses op eq_refl) as [responses Hr]. unfold bind.
    rewrite (buildMethodFromOperation_contribution op verb path responses model Hr).
    reflexivity.
  - rewrite extend_nil. reflexivity.
Qed.

Lemma build_path_contribution (entry : NamedPathItem) (model : Model) :
  (forall op, In op (modeled_operations (NamedPathItem_Value entry)) ->
              exists responses, Operation_Responses op = Some responses) ->
  build_path entry model
  = Returned (tt, extend model (map operation_contribution (modeled_calls entry))).
Proof.
  intros Hresponses. unfold build_path, modeled_calls.
  set (v := NamedPathItem_Value entry) in *.
  set (path := NamedPathItem_Name entry).
  assert (Hall : forall o, In o [Get v; Post v; Put v; Delete v] ->
                 forall op, o = Some op ->
                 exists responses, Operation_Responses op = Some responses).
  { intros o Ho op ->. apply Hresponses. unfold modeled_operations.
    apply in_flat_map. exists (Some op). split; [exact Ho|left; reflexivity]. }
  unfold bind at 1.
  rewrite (visit_verb_contribution (Get v) "GET" path); [|apply Hall; cbn; auto].
  unfold bind at 1.
  rewrite (visit_verb_contribution (Post v) "POST" path); [|apply Hall; cbn; auto].
  unfold bind at 1.
  rewrite (visit_verb_contribution (Put v) "PUT" path); [|apply Hall; cbn; auto].
  rewrite (visit_verb_contribution (Delete v) "DELETE" path);
    [|apply Hall; cbn; auto].
  rewrite !extend_app, !map_app. reflexivity.
Qed.

Lemma for_each_build_path_contribution (entries : list NamedPathItem)
    (model : Model) :
  (forall entry op,
     In entry entries ->
     In op (modeled_operations (NamedPathItem_Value entry)) ->
     exists responses, Operation_Responses op = Some responses) ->
  for_each entries build_path model
  = Returned (tt, extend model
                    (map operation_contribution (flat_map modeled_calls entries))).
Proof.
  revert model. induction entries as [|entry entries IH]; intros model Hresponses.
  - cbn. rewrite extend_nil. reflexivity.
  - cbn [for_each flat_map]. unfold bind.
    rewrite build_path_contribution;
      [|intros op; apply Hresponses; left; reflexivity].
    rewrite IH; [|intros e op He; apply Hresponses; right; exact He].
    rewrite extend_app, map_app. reflexivity.
Qed.

Lemma build_definitions_contribution (pairs : list NamedSchema) (model : Model) :
  (forall entry, In entry pairs -> schema_in_clause (NamedSchema_Value entry)) ->
  build_definitions pairs model
  = Returned
      (None,
       mkModel (Model_Name model)
               (Model_Types model ++ flat_map definition_contribution pairs)%list
               (Model_Methods model)).
Proof.
  revert model. induction pairs as [|entry pairs IH]; intros model Hsafe.
  - cbn. rewrite app_nil_r. destruct model. reflexivity.
  - cbn [build_definitions flat_map]. unfold bind, lift.
    unfold definition_contribution at 1.
    destruct (proj1 (proj1 (buildTypeFromDefinition_returns_iff
                (NamedSchema_Name entry) (NamedSchema_Value entry)))
                (Hsafe entry (or_introl eq_refl))) as [t Ht].
    rewrite Ht. cbn [fst snd]. unfold modify.
    rewrite IH; [|intros e He; apply Hsafe; right; exact He].
    cbn [addType Model_Name Model_Types Model_Methods].
    rewrite <- app_assoc. reflexivity.
Qed.

(** The model of a translatable document is the assembled one. *)
Lemma NewModelFromOpenAPI2_assembled (document : Document) :
  translatable document ->
  exists info paths,
    Document_Info document = Some info /\
    Document_Paths document = Some paths /\
    NewModelFromOpenAPI2 document
    = Returned
        (Some (assembled_model (Title info) (definitions_of document) (Path paths)),
         None).
Proof.
  intros [[info Hinfo] [[paths [Hpaths Hresponses]] Hsafe]].
  exists info, paths. split; [exact Hinfo|]. split; [exact Hpaths|].
  unfold NewModelFromOpenAPI2, buildModel. rewrite Hinfo.
  unfold bind at 1 2 3. unfold modify.
  change (set_Model_Methods []
            (set_Model_Types [] (set_Model_Name (Title info) zeroModel)))
    with (mkModel (Title info) [] []).
  assert (Hdefs :
    match Document_Definitions document with
    | Some definitions =>
      build_definitions (Definitions_AdditionalProperties definitions)
    | None => ret None
    end (mkModel (Title info) [] [])
    = Returned
        (None,
         mkModel (Title info)
                 (flat_map definition_contribution (definitions_of document)) [])).
  { unfold definitions_of.
    destruct (Document_Definitions document) as [definitions|]; [|reflexivity].
    rewrite build_definitions_contribution; [reflexivity|].
    intros entry. apply Hsafe. reflexivity. }
  unfold build, bind. rewrite Hdefs, Hpaths.
  rewrite (for_each_build_path_contribution (Path paths) _ Hresponses).
  reflexivity.
Qed.

(** C9, amended: the translation never reports an error.  When it returns,
    the error is nil and the model is the whole one: named by the title, its
    types are the type of each definition, in the order of the definitions,
    followed by the types that each operation under GET, POST, PUT and DELETE
    gives when translated alone, in the order of the paths, and its methods
    are the methods of these operations.  Without an info section or without
    a paths section it panics, returning nothing.  A document that has both,
    a responses section on each of these operations, and a schema object in
    the additional-properties clause of every definition without declared
    property, is translated to that model. *)
Theorem translation_outcomes (document : Document) :
  (forall result,
     NewModelFromOpenAPI2 document = Returned result ->
     exists info paths,
       Document_Info document = Some info /\
       Document_Paths document = Some paths /\
       result
       = (Some (assembled_model (Title info) (definitions_of document)
                                (Path paths)),
          None)) /\
  (Document_Info document = None \/ Document_Paths document = None ->
   NewModelFromOpenAPI2 document = Panicked) /\
  (translatable document ->
   exists info paths,
     Document_Info document = Some info /\
     Document_Paths document = Some paths /\
     NewModelFromOpenAPI2 document
     = Returned
         (Some (assembled_model (Title info) (definitions_of document)
                                (Path paths)),
          None)).
Proof.
  split; [|split].
  - intros result Hrun.
    pose proof (NewModelFromOpenAPI2_returned document result Hrun) as Hdoc.
    destruct (NewModelFromOpenAPI2_assembled document Hdoc)
      as [info [paths [Hinfo [Hpaths Hmodel]]]].
    exists info, paths. split; [exact Hinfo|]. split; [exact Hpaths|].
    rewrite Hmodel in Hrun. inversion Hrun. reflexivity.
  - intros [Hinfo|Hpaths]; unfold NewModelFromOpenAPI2, buildModel.
    + rewrite Hinfo. reflexivity.
    + destruct (Document_Info document) as [info|]; [|reflexivity].
      unfold bind, modify. rewrite (build_without_paths document _ Hpaths).
      reflexivity.
  - apply NewModelFromOpenAPI2_assembled.
Qed.

End Assembly.

Lemma translation_outcomes_witness :
  @NewModelFromOpenAPI2 sample_externals pets_document
  = Returned
      (Some {|
         Model_Name := "Pets";
         Model_Types :=
           [mkType "Pet" "implements the service definition of Pet" 1%Z
                   [mkField "name" "string" "" "" 0%Z true] "";
            mkType "getPetParameters" "getPetParameters holds parameters to getPet" 1%Z
                   [mkField "id" "string" "" "" 5%Z true] "";
            mkType "getPetResponses" "getPetResponses holds responses of getPet" 1%Z
                   [mkField "200" "*Pet" "Pet" "" 0%Z false] ""];
         Model_Methods :=
           [mkMethod "getPet" "/pets/{id}" "GET" "" "getPet"
                     "getPetParameters" "getPetResponses"] |},
       None) /\
  @NewModelFromOpenAPI2 sample_externals
    {| Document_Info := None;
       Document_Definitions := None;
       Document_Paths := Some {| Path := [] |} |}
  = Panicked.
Proof.
  split.
  - destruct (proj2 (proj2 (@translation_outcomes sample_externals pets_document))
                pets_document_translatable)
      as [info [paths [Hinfo [Hpaths Hrun]]]].
    inversion Hinfo; subst info. inversion Hpaths; subst paths.
    exact Hrun.
  - apply (proj1 (proj2 (@translation_outcomes sample_externals _))).
    left. reflexivity.
Defined.
